(** * mvconfig: binding struct fields to environment / properties / defaults

    A shallow embedding of [mvconfig.go] and the properties of its
    field-resolution engine.

    The Go package walks the fields of a struct through [reflect], reads
    three struct tags ([mvenv], [crit], [def]) per field, looks the field up
    in the process environment, then in an optional properties file, then
    in the tag default, and finally converts the string it found to the
    kind of the field.

    Conventions of the embedding
    - a Go [string] is a [string]; [+] on strings is [String.append]
      (written [+:+]);
    - a Go [error] built by [errors.New] is its message; the [nil] error is
      [None];
    - the process environment is a finite map from names to values,
      [os.LookupEnv] is map lookup; a loaded properties file is a finite
      map as well and the [nil] [*properties.Properties] is [None];
    - [reflect] panics are an outcome of their own, distinct from a
      returned error;
    - the diagnostic [fmt.Println] of [getEnvValue] writes to standard
      output only and is not part of the modelled state. *)

From Stdlib Require Import ZArith Ascii.
From stdpp Require Import base strings gmap list.

Local Open Scope Z_scope.

(** ** The part of package [reflect] the code uses *)

Module reflect.

(** [reflect.Kind], every constant of the Go enumeration. *)
Inductive Kind : Set :=
| Invalid | Bool
| Int | Int8 | Int16 | Int32 | Int64
| Uint | Uint8 | Uint16 | Uint32 | Uint64 | Uintptr
| Float32 | Float64 | Complex64 | Complex128
| Array | Chan | Func | Interface | Map | Pointer | Slice
| String | Struct | UnsafePointer.

#[global] Instance Kind_eq_dec : EqDecision Kind.
Proof. solve_decision. Defined.

(** A struct tag in the conventional format is a sequence of
    [key:"value"] pairs; [StructTag.Lookup] scans them from the left and
    answers with the first pair whose key matches. *)
Abbreviation StructTag := (list (string * string)).

Fixpoint Lookup (tag : StructTag) (key : string) : option string :=
  match tag with
  | [] => None
  | (k, v) :: tag' => if decide (k = key) then Some v else Lookup tag' key
  end.

(** [reflect.StructField]: the declared name, whether the field is
    exported ([PkgPath] empty), the tag, and the kind of the field's
    type. *)
Record StructField : Set := mkStructField {
  Name : string;
  IsExported : bool;
  Tag : StructTag;
  TypeKind : Kind
}.

(** A struct type is the sequence of its fields, [t.Field(i)] is the
    [i]-th of them and [t.NumField()] their number. *)
Abbreviation StructType := (list StructField).

(** [FieldByName] on a struct type without promoted fields in play: the
    index of the first field that carries the name. *)
Fixpoint FieldByName_from (t : StructType) (name : string) (i : nat) : option nat :=
  match t with
  | [] => None
  | f :: t' => if decide (Name f = name) then Some i
               else FieldByName_from t' name (S i)
  end.

Definition FieldByName (t : StructType) (name : string) : option nat :=
  FieldByName_from t name 0%nat.

End reflect.

(** ** Package [strings] and [strconv] *)

Module strings.

(** [strings.ToLower] on the ASCII range: [A]..[Z] go to [a]..[z], every
    other byte is kept. Go lower-cases by Unicode rune; the one caller
    compares the result with the words [true], [y] and [t], and no letter
    outside ASCII lower-cases to one of their letters, so the ASCII range
    decides that comparison. *)
Definition lower_byte (c : ascii) : ascii :=
  let n := N_of_ascii c in
  if ((65 <=? n) && (n <=? 90))%N then ascii_of_N (n + 32) else c.

Fixpoint ToLower (s : string) : string :=
  match s with
  | EmptyString => EmptyString
  | String c s' => String (lower_byte c) (ToLower s')
  end.

End strings.

Module strconv.

(** The width of Go's [int] on the platform ([strconv.IntSize]). *)
Definition IntSize : Z := 64.

Definition minInt : Z := - 2 ^ (IntSize - 1).
Definition maxInt : Z := 2 ^ (IntSize - 1) - 1.

Definition digit (c : ascii) : option Z :=
  let n := Z.of_N (N_of_ascii c) in
  if (48 <=? n) && (n <=? 57) then Some (n - 48) else None.

(** The decimal digits of [s], most significant first, read onto [acc]. *)
Fixpoint digits (s : string) (acc : Z) : option Z :=
  match s with
  | EmptyString => Some acc
  | String c s' =>
      match digit c with
      | Some d => digits s' (10 * acc + d)
      | None => None
      end
  end.

(** [strconv.Atoi]: an optional sign, then at least one decimal digit and
    nothing else; the value has to fit Go's [int]. [None] stands for the
    returned [*NumError] (syntax or range). *)
Definition Atoi (s : string) : option Z :=
  let '(neg, body) :=
    match s with
    | String "-" r => (true, r)
    | String "+" r => (false, r)
    | _ => (false, s)
    end in
  match body with
  | EmptyString => None
  | _ =>
      match digits body 0 with
      | None => None
      | Some n =>
          let v := if neg then - n else n in
          if (minInt <=? v) && (v <=? maxInt) then Some v else None
      end
  end.

(** [strconv.ParseBool]: a fixed table of twelve spellings. *)
Definition ParseBool (str : string) : option bool :=
  if bool_decide (str ∈ ["1"; "t"; "T"; "TRUE"; "true"; "True"]) then Some true
  else if bool_decide (str ∈ ["0"; "f"; "F"; "FALSE"; "false"; "False"]) then Some false
  else None.

End strconv.

(** ** [mvconfig.go] *)

(** [errors.New(msg)]. *)
Definition error := string.

(** [type envTags struct]. *)
Record envTags : Set := mkEnvTags {
  Name : string;
  Critical : bool;
  HasDefault : bool;
  Default : string
}.

(** [func getTags(f reflect.StructField) (envTags, error)]. *)
Definition getTags (f : reflect.StructField) : envTags * option error :=
  let e := {| Name := reflect.Name f; Critical := false;
              HasDefault := false; Default := "" |} in
  let e :=
    match reflect.Lookup (reflect.Tag f) "mvenv" with
    | Some value => {| Name := value; Critical := Critical e;
                       HasDefault := HasDefault e; Default := Default e |}
    | None => e
    end in
  let e :=
    match reflect.Lookup (reflect.Tag f) "crit" with
    | Some crit =>
        let crit := strings.ToLower crit in
        if bool_decide (crit = "true") || bool_decide (crit = "y")
           || bool_decide (crit = "t")
        then {| Name := Name e; Critical := true;
                HasDefault := HasDefault e; Default := Default e |}
        else e
    | None => e
    end in
  let e :=
    match reflect.Lookup (reflect.Tag f) "def" with
    | Some defval => {| Name := Name e; Critical := Critical e;
                        HasDefault := true; Default := defval |}
    | None => e
    end in
  (e, None).

(** The process environment and a loaded properties file, each as the
    key-to-value lookup the code asks of it ([os.LookupEnv], [props.Get]). *)
Abbreviation Environ := (gmap string string).
Abbreviation Properties := (gmap string string).

(** The local [name] of [getEnvValue]: the key both sources are asked for. *)
Definition effectiveName (eTags : envTags) (prefix : string) : string :=
  let name := Name eTags in
  if bool_decide (prefix ≠ "") then prefix +:+ "_" +:+ name else name.

Definition missingCritical (name : string) : error :=
  "Critical Config field " +:+ name +:+ " missing from the environment".

(** The guarded lookup [if props != nil { props.Get(name) }]: nothing is
    found when there is no properties source. *)
Definition propsGet (props : option Properties) (name : string) : option string :=
  match props with
  | Some p => p !! name
  | None => None
  end.

(** [func getEnvValue(eTags envTags, props *properties.Properties,
    prefix string) (string, error, bool)], with the environment it reads
    as an argument. *)
Definition getEnvValue (environ : Environ) (eTags : envTags)
    (props : option Properties) (prefix : string)
    : string * option error * bool :=
  let name := effectiveName eTags prefix in
  match environ !! name with
  | Some value => (value, None, true)
  | None =>
      match propsGet props name with
      | Some value => (value, None, true)
      | None =>
          if HasDefault eTags then (Default eTags, None, true)
          else if Critical eTags then ("", Some (missingCritical name), false)
          else ("", None, false)
      end
  end.

(** ** Values behind the reflected struct, and [manageFields] *)

#[local] Set Warnings "-register-all".

(** Why a [reflect] call of [manageFields] panics. *)
Inductive PanicReason : Set :=
| ElemOnZeroValue          (* reflect.ValueOf(nil).Elem() *)
| ElemOnNonPointer (k : reflect.Kind)
| TypeOnZeroValue          (* Elem() of a nil pointer, then Type() *)
| NumFieldOfNonStruct (k : reflect.Kind)
| SetOnWrongKind (k : reflect.Kind).

Section Engine.

(** Floating point is left to the platform: the two carriers,
    [strconv.ParseFloat(s, 64)] ([None] is its error) and the conversion
    [float32(x)] that [SetFloat] applies to a [float32] field. *)
Context {float32 float64 : Type}.
Variable ParseFloat : string -> option float64.
Variable toFloat32 : float64 -> float32.

(** The content of one struct field, as far as the setters reach it. *)
Inductive Value : Type :=
| VString (s : string)
| VInt (z : Z)
| VBool (b : bool)
| VFloat32 (x : float32)
| VFloat64 (x : float64)
| VOpaque.

(** What an [interface{}] argument can hold: a struct value, a pointer
    (nil or not) or a value of some other kind. The nil interface is
    [None]. *)
Inductive Object : Type :=
| StructObj (t : reflect.StructType) (vals : list Value)
| PointerObj (target : option Object)
| OtherObj (k : reflect.Kind).

Definition kindOf (o : Object) : reflect.Kind :=
  match o with
  | StructObj _ _ => reflect.Struct
  | PointerObj _ => reflect.Pointer
  | OtherObj k => k
  end.

(** The result of a call: it returns (with the struct as the call left
    it, and the error or nil), or a [reflect] call panics. *)
Inductive outcome : Type :=
| Returned (vals : list Value) (err : option error)
| Panicked (why : PanicReason).

(** Conversion [intN(x)] of an [int64]: wrap-around to [w] bits. *)
Definition wrap (w x : Z) : Z :=
  (x + 2 ^ (w - 1)) mod 2 ^ w - 2 ^ (w - 1).

Definition intBits (k : reflect.Kind) : option Z :=
  match k with
  | reflect.Int => Some strconv.IntSize
  | reflect.Int8 => Some 8
  | reflect.Int16 => Some 16
  | reflect.Int32 => Some 32
  | reflect.Int64 => Some 64
  | _ => None
  end.

Definition kindAt (t : reflect.StructType) (j : nat) : reflect.Kind :=
  match t !! j with
  | Some f => reflect.TypeKind f
  | None => reflect.Invalid
  end.

(** The setters of [reflect.Value], on field [j] of the struct: each
    panics ([inl]) on a field of another kind. *)
Definition SetString (t : reflect.StructType) (vals : list Value) (j : nat)
    (x : string) : PanicReason + list Value :=
  match kindAt t j with
  | reflect.String => inr (<[j := VString x]> vals)
  | k => inl (SetOnWrongKind k)
  end.

Definition SetInt (t : reflect.StructType) (vals : list Value) (j : nat)
    (x : Z) : PanicReason + list Value :=
  match intBits (kindAt t j) with
  | Some w => inr (<[j := VInt (wrap w x)]> vals)
  | None => inl (SetOnWrongKind (kindAt t j))
  end.

Definition SetBool (t : reflect.StructType) (vals : list Value) (j : nat)
    (x : bool) : PanicReason + list Value :=
  match kindAt t j with
  | reflect.Bool => inr (<[j := VBool x]> vals)
  | k => inl (SetOnWrongKind k)
  end.

Definition SetFloat (t : reflect.StructType) (vals : list Value) (j : nat)
    (x : float64) : PanicReason + list Value :=
  match kindAt t j with
  | reflect.Float32 => inr (<[j := VFloat32 (toFloat32 x)]> vals)
  | reflect.Float64 => inr (<[j := VFloat64 x]> vals)
  | k => inl (SetOnWrongKind k)
  end.

(** [fld.CanSet()]: the struct is reached through a pointer, so a field
    is settable exactly when it is exported. A field that
    [FieldByName] does not find is the zero [Value], not settable. *)
Definition CanSet (t : reflect.StructType) (fld : option nat) : bool :=
  match fld with
  | Some j => match t !! j with
              | Some f => reflect.IsExported f
              | None => false
              end
  | None => false
  end.

(** Field [f] is settable and is the field [FieldByName] returns for its
    own name, at index [j] (in a Go struct the exported names are
    distinct, so this holds of every exported field at its own index). *)
Definition settableAt (t : reflect.StructType) (f : reflect.StructField)
    (j : nat) : Prop :=
  reflect.IsExported f = true /\
  reflect.FieldByName t (reflect.Name f) = Some j /\
  t !! j = Some f.

(** One turn of the loop of [manageFields]. *)
Inductive step : Type :=
| Next (vals : list Value)
| Fail (err : error)
| Panic (why : PanicReason).

Definition afterSet (r : PanicReason + list Value) : step :=
  match r with
  | inr vals => Next vals
  | inl why => Panic why
  end.

Definition convError (name kind : string) : error :=
  "Error converting field " +:+ name +:+ " to " +:+ kind.

(** The two compound kind tests of the loop body, as written there:
    [Int || Int8 || Int32 || Int64] and [Float32 || Float32]. *)
Definition isIntKind (k : reflect.Kind) : bool :=
  bool_decide (k = reflect.Int) || bool_decide (k = reflect.Int8)
  || bool_decide (k = reflect.Int32) || bool_decide (k = reflect.Int64).

Definition isFloatKind (k : reflect.Kind) : bool :=
  bool_decide (k = reflect.Float32) || bool_decide (k = reflect.Float32).

(** The body of [for i := 0; i < t.NumField(); i++], for [f = t.Field(i)]. *)
Definition manageField (environ : Environ) (props : option Properties)
    (prefix : string) (t : reflect.StructType) (f : reflect.StructField)
    (vals : list Value) : step :=
  match getTags f with
  | (eTags, None) =>
      let '(value, err, ok) := getEnvValue environ eTags props prefix in
      if ok then
        let fld := reflect.FieldByName t (reflect.Name f) in
        if CanSet t fld then
          let j := default 0%nat fld in
          let k := reflect.TypeKind f in
          if bool_decide (k = reflect.String) then
            afterSet (SetString t vals j value)
          else if isIntKind k then
            match strconv.Atoi value with
            | None => Fail (convError (Name eTags) "int")
            | Some val => afterSet (SetInt t vals j val)
            end
          else if bool_decide (k = reflect.Bool) then
            match strconv.ParseBool value with
            | None => Fail (convError (Name eTags) "bool")
            | Some val => afterSet (SetBool t vals j val)
            end
          else if isFloatKind k then
            match ParseFloat value with
            | None => Fail (convError (Name eTags) "float")
            | Some val => afterSet (SetFloat t vals j val)
            end
          else Next vals
        else Next vals
      else
        match err with
        | Some err => Fail err
        | None => Next vals
        end
  | (_, Some _) => Next vals
  end.

(** The loop over the fields still to visit. *)
Fixpoint fieldLoop (environ : Environ) (props : option Properties)
    (prefix : string) (t : reflect.StructType)
    (todo : list reflect.StructField) (vals : list Value) : outcome :=
  match todo with
  | [] => Returned vals None
  | f :: todo' =>
      match manageField environ props prefix t f vals with
      | Next vals' => fieldLoop environ props prefix t todo' vals'
      | Fail err => Returned vals (Some err)
      | Panic why => Panicked why
      end
  end.

(** [func manageFields(envVar interface{}, props *properties.Properties,
    prefix string) error]. *)
Definition manageFields (environ : Environ) (envVar : option Object)
    (props : option Properties) (prefix : string) : outcome :=
  match envVar with
  | None => Panicked ElemOnZeroValue
  | Some (PointerObj None) => Panicked TypeOnZeroValue
  | Some (PointerObj (Some (StructObj t vals))) =>
      fieldLoop environ props prefix t t vals
  | Some (PointerObj (Some o)) => Panicked (NumFieldOfNonStruct (kindOf o))
  | Some o => Panicked (ElemOnNonPointer (kindOf o))
  end.

(** [properties.LoadFile(fileName, properties.UTF8)] over a file system:
    the parsed file, or the error of opening or parsing it. *)
Definition FileSystem := string -> error + Properties.

(** [func loadVariables(envStruct interface{}, prefix string,
    fileName string) error]. *)
Definition loadVariables (fs : FileSystem) (environ : Environ)
    (envStruct : option Object) (prefix fileName : string) : outcome :=
  let props :=
    match fs fileName with
    | inr props => Some props
    | inl _ => None
    end in
  manageFields environ envStruct props prefix.

(** The targets the package is written for: a non-nil pointer to a
    struct. *)
Definition isStructPointer (envStruct : option Object) : bool :=
  match envStruct with
  | Some (PointerObj (Some (StructObj _ _))) => true
  | _ => false
  end.

Definition LoadVariables fs environ envStruct :=
  loadVariables fs environ envStruct "" "app.properties".
Definition LoadVariablesWithProps fs environ envStruct fileName :=
  loadVariables fs environ envStruct "" fileName.
Definition LoadVariablesWithPrefix fs environ envStruct prefix :=
  loadVariables fs environ envStruct prefix "app.properties".
Definition LoadVariablesWithPrefixAndProps fs environ envStruct prefix fileName :=
  loadVariables fs environ envStruct prefix fileName.

End Engine.

(** ** Example data

    The struct of the usage notes, with a prefix-free and a prefixed
    environment, used to run the statements below on concrete input. *)

Module Examples.

(** No example struct holds a floating-point field: the float carriers
    of the examples are the empty type, which leaves exactly one parser
    and one conversion. *)
Definition parseNoFloat (s : string) : option Empty_set := None.
Definition convNoFloat (x : Empty_set) : Empty_set := x.

(** [Port int `mvenv:"PORT" def:"8080"`] *)
Definition fPort : reflect.StructField :=
  reflect.mkStructField "Port" true [("mvenv", "PORT"); ("def", "8080")] reflect.Int.
(** [Host string `mvenv:"HOST" crit:"true"`] *)
Definition fHost : reflect.StructField :=
  reflect.mkStructField "Host" true [("mvenv", "HOST"); ("crit", "true")] reflect.String.
(** [Debug bool `mvenv:"DEBUG" def:"false"`] *)
Definition fDebug : reflect.StructField :=
  reflect.mkStructField "Debug" true [("mvenv", "DEBUG"); ("def", "false")] reflect.Bool.
(** [Label string `def:""`] *)
Definition fLabel : reflect.StructField :=
  reflect.mkStructField "Label" true [("def", "")] reflect.String.
(** [Token string `mvenv:"" crit:"y" def:"none"`] *)
Definition fToken : reflect.StructField :=
  reflect.mkStructField "Token" true [("mvenv", ""); ("crit", "y"); ("def", "none")]
    reflect.String.

(** [Mode string `crit:"true" def:"dev"`] *)
Definition fMode : reflect.StructField :=
  reflect.mkStructField "Mode" true [("crit", "true"); ("def", "dev")] reflect.String.
(** [Ratio float64] *)
Definition fRatio : reflect.StructField :=
  reflect.mkStructField "Ratio" true [] reflect.Float64.
(** [Count int16] *)
Definition fCount : reflect.StructField :=
  reflect.mkStructField "Count" true [] reflect.Int16.
(** [Tiny int8] *)
Definition fTiny : reflect.StructField :=
  reflect.mkStructField "Tiny" true [] reflect.Int8.
(** [secret bool], not exported *)
Definition fSecret : reflect.StructField :=
  reflect.mkStructField "secret" false [] reflect.Bool.

Definition tConfig : reflect.StructType := [fPort; fHost; fDebug].

Definition zeroConfig : list (@Value Empty_set Empty_set) :=
  [VInt 0; VString ""; VBool false].

Definition envHost : Environ := {[ "HOST" := "example.com" ]}.
Definition envPort : Environ := {[ "PORT" := "9090" ]}.
Definition propsPort : Properties := {[ "PORT" := "7070" ]}.

(** A file system without any properties file. *)
Definition noFiles : FileSystem :=
  fun fileName => inl ("open " +:+ fileName +:+ ": no such file or directory").

End Examples.

(** ** Shape of a struct value *)

Section Shape.

Context {float32 float64 : Type}.

(** A value a setter of [reflect.Value] can leave in a field of kind [k]:
    a string in a string field, an integer within the width of an integer
    field, and so on; [VOpaque] is the content of a field of any kind the
    setters above do not reach. *)
Definition valueOfKind (k : reflect.Kind) (v : @Value float32 float64) : Prop :=
  match v with
  | VString _ => k = reflect.String
  | VInt z => exists w, intBits k = Some w /\ - 2 ^ (w - 1) <= z < 2 ^ (w - 1)
  | VBool _ => k = reflect.Bool
  | VFloat32 _ => k = reflect.Float32
  | VFloat64 _ => k = reflect.Float64
  | VOpaque => k <> reflect.String /\ intBits k = None /\ k <> reflect.Bool /\
               k <> reflect.Float32 /\ k <> reflect.Float64
  end.

(** A struct value of type [t]: one value per field, each of the kind of
    its field. *)
Definition wellTyped (t : reflect.StructType)
    (vals : list (@Value float32 float64)) : Prop :=
  Forall2 (fun f v => valueOfKind (reflect.TypeKind f) v) t vals.

End Shape.

(** The field names of a struct type, in declaration order. *)
Definition fieldNames (t : reflect.StructType) : list string :=
  reflect.Name <$> t.

Module MoreExamples.

(** [Rate float32] *)
Definition fRate : reflect.StructField :=
  reflect.mkStructField "Rate" true [] reflect.Float32.
(** [Tags []string], a kind the loop body has no branch for *)
Definition fTags : reflect.StructField :=
  reflect.mkStructField "Tags" true [] reflect.Slice.
(** [Note string], no tag at all *)
Definition fNote : reflect.StructField :=
  reflect.mkStructField "Note" true [] reflect.String.
(** [Level int32 `crit:"Y"`] *)
Definition fLevel : reflect.StructField :=
  reflect.mkStructField "Level" true [("crit", "Y")] reflect.Int32.

(** [struct { Port int; Host string; Debug bool; secret bool; Tags []string }]
    with the tags of the usage notes on the first three fields. *)
Definition tWide : reflect.StructType :=
  [Examples.fPort; Examples.fHost; Examples.fDebug; Examples.fSecret; fTags].

Definition zeroWide : list (@Value Empty_set Empty_set) :=
  [VInt 0; VString ""; VBool false; VBool false; VOpaque].

Definition envWide : Environ :=
  {[ "HOST" := "example.com"; "PORT" := "9090"; "secret" := "true";
     "Tags" := "a,b" ]}.

(** A file system whose [app.properties] parses to no key at all. *)
Definition emptyFile : FileSystem := fun _ => inr ∅.

(** [Alpha string `mvenv:"ALPHA" crit:"true"`] *)
Definition fAlpha : reflect.StructField :=
  reflect.mkStructField "Alpha" true [("mvenv", "ALPHA"); ("crit", "true")]
    reflect.String.
(** [Beta string `mvenv:"BETA" crit:"true"`] *)
Definition fBeta : reflect.StructField :=
  reflect.mkStructField "Beta" true [("mvenv", "BETA"); ("crit", "true")]
    reflect.String.

End MoreExamples.

(** ** [strconv.Atoi] stays within [int] *)

Lemma Atoi_range (s : string) (z : Z) :
  strconv.Atoi s = Some z -> strconv.minInt <= z <= strconv.maxInt.
Proof.
  unfold strconv.Atoi.
  destruct (match s with
            | String "-" r => (true, r)
            | String "+" r => (false, r)
            | _ => (false, s)
            end) as [neg body].
  destruct body as [|c body]; [discriminate|].
  destruct (strconv.digits (String c body) 0) as [n|]; [|discriminate].
  destruct (_ && _) eqn:Hrange; [|discriminate].
  intros [= <-]. apply andb_true_iff in Hrange as [Hlo Hhi]. lia.
Qed.

(** ** Struct tags and the lookup name *)

Lemma getTags_no_error (f : reflect.StructField) : (getTags f).2 = None.
Proof. reflexivity. Qed.

Lemma getTags_Name (f : reflect.StructField) :
  Name (getTags f).1 =
  default (reflect.Name f) (reflect.Lookup (reflect.Tag f) "mvenv").
Proof.
  unfold getTags.
  destruct (reflect.Lookup (reflect.Tag f) "mvenv");
    destruct (reflect.Lookup (reflect.Tag f) "crit");
    destruct (reflect.Lookup (reflect.Tag f) "def"); simpl;
    repeat case_match; reflexivity.
Qed.

Lemma getTags_HasDefault (f : reflect.StructField) :
  HasDefault (getTags f).1 =
  bool_decide (is_Some (reflect.Lookup (reflect.Tag f) "def")).
Proof.
  unfold getTags.
  destruct (reflect.Lookup (reflect.Tag f) "mvenv");
    destruct (reflect.Lookup (reflect.Tag f) "crit");
    destruct (reflect.Lookup (reflect.Tag f) "def"); simpl;
    repeat case_match; reflexivity.
Qed.

Lemma getTags_Default (f : reflect.StructField) (d : string) :
  reflect.Lookup (reflect.Tag f) "def" = Some d ->
  HasDefault (getTags f).1 = true /\ Default (getTags f).1 = d.
Proof.
  intros Hd. unfold getTags. rewrite Hd.
  destruct (reflect.Lookup (reflect.Tag f) "mvenv");
    destruct (reflect.Lookup (reflect.Tag f) "crit"); simpl;
    repeat case_match; split; reflexivity.
Qed.

(** C7 (as amended). The lookup name of a field is the value of its [mvenv]
    tag when the tag is present and the declared name otherwise, byte for
    byte; it is non-empty whenever the declared name is non-empty and the
    override, if any, is not the empty string. *)
Theorem C7_lookup_name (f : reflect.StructField) :
  (forall v, reflect.Lookup (reflect.Tag f) "mvenv" = Some v ->
             Name (getTags f).1 = v) /\
  (reflect.Lookup (reflect.Tag f) "mvenv" = None ->
   Name (getTags f).1 = reflect.Name f) /\
  (reflect.Name f <> "" ->
   reflect.Lookup (reflect.Tag f) "mvenv" <> Some "" ->
   Name (getTags f).1 <> "").
Proof.
  rewrite getTags_Name. repeat split.
  - intros v ->. reflexivity.
  - intros ->. reflexivity.
  - intros Hname Hover.
    destruct (reflect.Lookup (reflect.Tag f) "mvenv") as [v|]; simpl.
    + intros ->. apply Hover. reflexivity.
    + exact Hname.
Qed.

Lemma C7_lookup_name_witness :
  Name (getTags Examples.fPort).1 = "PORT" /\
  Name (getTags Examples.fLabel).1 = "Label" /\
  Name (getTags Examples.fPort).1 <> "".
Proof.
  destruct (C7_lookup_name Examples.fPort) as (Hover & _ & Hne).
  destruct (C7_lookup_name Examples.fLabel) as (_ & Hown & _).
  split; [apply Hover; reflexivity|].
  split; [apply Hown; reflexivity|].
  apply Hne; discriminate.
Defined.

(** C7 (as stated) fails: a field declared [Token] with the tag [mvenv:""]
    has a non-empty declared name and an empty lookup name. *)
Lemma C7_empty_override :
  reflect.Name Examples.fToken <> "" /\
  reflect.Lookup (reflect.Tag Examples.fToken) "mvenv" = Some "" /\
  ~ (Name (getTags Examples.fToken).1 <> "").
Proof.
  split; [discriminate|]. split; [reflexivity|].
  intros Hne. apply Hne. reflexivity.
Qed.

(** ** Source priority in [getEnvValue] *)

Lemma getEnvValue_env environ eTags props prefix value :
  environ !! effectiveName eTags prefix = Some value ->
  getEnvValue environ eTags props prefix = (value, None, true).
Proof. intros H. unfold getEnvValue. rewrite H. reflexivity. Qed.

Lemma getEnvValue_props environ eTags props prefix value :
  environ !! effectiveName eTags prefix = None ->
  propsGet props (effectiveName eTags prefix) = Some value ->
  getEnvValue environ eTags props prefix = (value, None, true).
Proof. intros He Hp. unfold getEnvValue. rewrite He, Hp. reflexivity. Qed.

Lemma getEnvValue_absent environ eTags props prefix :
  environ !! effectiveName eTags prefix = None ->
  propsGet props (effectiveName eTags prefix) = None ->
  getEnvValue environ eTags props prefix =
    if HasDefault eTags then (Default eTags, None, true)
    else if Critical eTags
         then ("", Some (missingCritical (effectiveName eTags prefix)), false)
         else ("", None, false).
Proof. intros He Hp. unfold getEnvValue. rewrite He, Hp. reflexivity. Qed.

(** C1. The string a field resolves to is picked by fixed priority, first
    hit only: the environment value when the effective name is set in the
    environment; else the properties value when a properties source exists
    and holds the key; else the [def] tag of the field, verbatim, the
    empty string included. *)
Theorem C1_source_priority (environ : Environ) (f : reflect.StructField)
    (props : option Properties) (prefix : string) :
  let eTags := (getTags f).1 in
  let name := effectiveName eTags prefix in
  (forall v, environ !! name = Some v ->
     getEnvValue environ eTags props prefix = (v, None, true)) /\
  (forall p v, environ !! name = None -> props = Some p -> p !! name = Some v ->
     getEnvValue environ eTags props prefix = (v, None, true)) /\
  (forall d, environ !! name = None -> propsGet props name = None ->
     reflect.Lookup (reflect.Tag f) "def" = Some d ->
     getEnvValue environ eTags props prefix = (d, None, true)).
Proof.
  intros eTags name. repeat split.
  - intros v Hv. apply getEnvValue_env. exact Hv.
  - intros p v He -> Hp. apply getEnvValue_props; [exact He | exact Hp].
  - intros d He Hp Hd.
    destruct (getTags_Default f d Hd) as [Hhas Hdef].
    rewrite getEnvValue_absent by assumption.
    fold eTags in Hhas, Hdef. rewrite Hhas, Hdef. reflexivity.
Qed.

Lemma C1_source_priority_witness :
  getEnvValue Examples.envPort (getTags Examples.fPort).1
    (Some Examples.propsPort) "" = ("9090", None, true) /\
  getEnvValue Examples.envHost (getTags Examples.fPort).1
    (Some Examples.propsPort) "" = ("7070", None, true) /\
  getEnvValue Examples.envHost (getTags Examples.fPort).1
    None "" = ("8080", None, true) /\
  getEnvValue Examples.envHost (getTags Examples.fLabel).1
    (Some Examples.propsPort) "" = ("", None, true).
Proof.
  split.
  { destruct (C1_source_priority Examples.envPort Examples.fPort
                (Some Examples.propsPort) "") as (Henv & _ & _).
    apply Henv. reflexivity. }
  split.
  { destruct (C1_source_priority Examples.envHost Examples.fPort
                (Some Examples.propsPort) "") as (_ & Hprops & _).
    apply (Hprops Examples.propsPort); reflexivity. }
  split.
  { destruct (C1_source_priority Examples.envHost Examples.fPort None "")
      as (_ & _ & Hdef).
    apply Hdef; reflexivity. }
  { destruct (C1_source_priority Examples.envHost Examples.fLabel
                (Some Examples.propsPort) "") as (_ & _ & Hdef).
    apply Hdef; reflexivity. }
Defined.

(** ** The key the sources are asked for *)



(** ** The field loop *)

Lemma FieldByName_from_app_l (pre rest : reflect.StructType)
    (g : reflect.StructField) (i : nat) :
  g ∈ pre ->
  exists j, reflect.FieldByName_from (pre ++ rest) (reflect.Name g) i = Some j
            /\ (j < i + List.length pre)%nat.
Proof.
  revert i. induction pre as [|h pre IH]; intros i Hin.
  - inversion Hin.
  - simpl. destruct (decide (reflect.Name h = reflect.Name g)) as [_|Hne].
    + exists i. split; [reflexivity | lia].
    + apply elem_of_cons in Hin as [-> | Hin]; [congruence|].
      destruct (IH (S i) Hin) as (j & Hj & Hlt).
      exists j. split; [exact Hj | lia].
Qed.

Lemma convError_not_missing (name kind key : string) :
  "Error converting field " +:+ name +:+ " to " +:+ kind <> missingCritical key.
Proof. unfold missingCritical. simpl. discriminate. Qed.

Section EngineFacts.

Context {float32 float64 : Type}.
Variable ParseFloat : string -> option float64.
Variable toFloat32 : float64 -> float32.

Implicit Types (t todo pre post : list reflect.StructField)
               (f g : reflect.StructField)
               (vals : list (@Value float32 float64))
               (environ : Environ) (props : option Properties)
               (prefix : string).

Lemma fieldLoop_app environ props prefix t pre post vals :
  fieldLoop ParseFloat toFloat32 environ props prefix t (pre ++ post) vals =
  match fieldLoop ParseFloat toFloat32 environ props prefix t pre vals with
  | Returned vals' None => fieldLoop ParseFloat toFloat32 environ props prefix t post vals'
  | o => o
  end.
Proof.
  revert vals. induction pre as [|f pre IH]; intros vals; simpl.
  - reflexivity.
  - destruct (manageField ParseFloat toFloat32 environ props prefix t f vals); auto.
Qed.

(** A setter that does not panic overwrites field [j] and nothing else. *)
Lemma afterSet_Next (r : PanicReason + list Value) vals' :
  afterSet r = Next vals' -> r = inr vals'.
Proof. destruct r; simpl; congruence. Qed.

Lemma SetString_inr t vals j x vals' :
  SetString t vals j x = inr vals' -> vals' = <[j := VString x]> vals.
Proof. unfold SetString. destruct (kindAt t j); congruence. Qed.

Lemma SetInt_inr t vals j x vals' :
  SetInt t vals j x = inr vals' ->
  exists w, intBits (kindAt t j) = Some w /\ vals' = <[j := VInt (wrap w x)]> vals.
Proof.
  unfold SetInt. destruct (intBits (kindAt t j)) as [w|]; [|congruence].
  intros [= <-]. eauto.
Qed.

Lemma SetBool_inr t vals j x vals' :
  SetBool t vals j x = inr vals' -> vals' = <[j := VBool x]> vals.
Proof. unfold SetBool. destruct (kindAt t j); congruence. Qed.

Lemma SetFloat_inr t vals j x vals' :
  SetFloat toFloat32 t vals j x = inr vals' ->
  exists v, vals' = <[j := v]> vals.
Proof. unfold SetFloat. destruct (kindAt t j); intros [= <-]; eauto. Qed.

(** A turn that goes on either leaves the struct alone or overwrites the
    one field [FieldByName] finds under the declared name. *)
Lemma manageField_Next_inv environ props prefix t f vals vals' :
  manageField ParseFloat toFloat32 environ props prefix t f vals = Next vals' ->
  vals' = vals \/
  exists j v, reflect.FieldByName t (reflect.Name f) = Some j
              /\ vals' = <[j := v]> vals.
Proof.
  unfold manageField.
  destruct (getTags f) as [eTags [e|]]; [intros [= <-]; auto|].
  destruct (getEnvValue environ eTags props prefix) as [[value err] [|]].
  2: { destruct err; [discriminate | intros [= <-]; auto]. }
  destruct (reflect.FieldByName t (reflect.Name f)) as [j|] eqn:Hfld;
    [|cbn; intros [= <-]; auto].
  destruct (CanSet t (Some j)); [|intros [= <-]; auto].
  simpl. repeat case_match; try discriminate;
    try (intros [= <-]; auto; fail); intros Hset%afterSet_Next; right; exists j.
  - apply SetString_inr in Hset. eauto.
  - apply SetInt_inr in Hset as (w & _ & ->). eauto.
  - apply SetBool_inr in Hset. eauto.
  - apply SetFloat_inr in Hset as (v & ->). eauto.
Qed.

Lemma fieldLoop_frame environ props prefix t todo vals vals' err (j : nat) :
  fieldLoop ParseFloat toFloat32 environ props prefix t todo vals = Returned vals' err ->
  (forall g, g ∈ todo -> reflect.FieldByName t (reflect.Name g) <> Some j) ->
  vals' !! j = vals !! j.
Proof.
  revert vals. induction todo as [|f todo IH]; intros vals; simpl.
  - intros [= <- _] _. reflexivity.
  - intros Hloop Hfar.
    destruct (manageField ParseFloat toFloat32 environ props prefix t f vals) as [vals1| |] eqn:Hf;
      [|injection Hloop as <- _; reflexivity|discriminate].
    rewrite (IH vals1 Hloop) by (intros g Hg; apply Hfar; set_solver).
    apply manageField_Next_inv in Hf as [-> | (i & v & Hi & ->)]; [reflexivity|].
    apply list_lookup_insert_ne. intros ->.
    apply (Hfar f); [set_solver | exact Hi].
Qed.

(** The turn of a field whose lookup ends at the mandatory check. *)
Lemma manageField_missing environ props prefix t f vals :
  Critical (getTags f).1 = true ->
  HasDefault (getTags f).1 = false ->
  environ !! effectiveName (getTags f).1 prefix = None ->
  propsGet props (effectiveName (getTags f).1 prefix) = None ->
  manageField ParseFloat toFloat32 environ props prefix t f vals =
    Fail (missingCritical (effectiveName (getTags f).1 prefix)).
Proof.
  intros Hcrit Hdef He Hp. unfold manageField.
  destruct (getTags f) as [eTags err] eqn:Htags.
  assert (err = None) as -> by (pose proof (getTags_no_error f) as H;
                                rewrite Htags in H; exact H).
  simpl in *. rewrite getEnvValue_absent by assumption.
  rewrite Hdef, Hcrit. reflexivity.
Qed.

Lemma fieldLoop_missing environ props prefix t f post vals :
  Critical (getTags f).1 = true ->
  HasDefault (getTags f).1 = false ->
  environ !! effectiveName (getTags f).1 prefix = None ->
  propsGet props (effectiveName (getTags f).1 prefix) = None ->
  fieldLoop ParseFloat toFloat32 environ props prefix t (f :: post) vals =
    Returned vals (Some (missingCritical (effectiveName (getTags f).1 prefix))).
Proof.
  intros Hcrit Hdef He Hp. simpl.
  rewrite manageField_missing by assumption. reflexivity.
Qed.

(** C2 (as amended). A mandatory field that is in neither source and
    declares no default stops the call: when the fields declared before it
    resolve without error the call returns the missing-field error that
    names the prefixed lookup name, together with the struct exactly as
    those earlier fields left it; and however the call returns (an earlier
    field may fail first, and then its error is the one returned), it
    returns an error and no field from the failing one onwards has been
    touched. *)
Theorem C2_missing_critical_fails_fast environ props prefix pre f post vals :
  let t := pre ++ f :: post in
  let name := effectiveName (getTags f).1 prefix in
  Critical (getTags f).1 = true ->
  reflect.Lookup (reflect.Tag f) "def" = None ->
  environ !! name = None ->
  propsGet props name = None ->
  (forall vals',
     fieldLoop ParseFloat toFloat32 environ props prefix t pre vals
       = Returned vals' None ->
     manageFields ParseFloat toFloat32 environ
       (Some (PointerObj (Some (StructObj t vals)))) props prefix
       = Returned vals' (Some (missingCritical name))) /\
  (forall vals' err,
     manageFields ParseFloat toFloat32 environ
       (Some (PointerObj (Some (StructObj t vals)))) props prefix
       = Returned vals' err ->
     err <> None /\
     forall j : nat, (List.length pre <= j)%nat -> vals' !! j = vals !! j).
Proof.
  intros t name Hcrit Hnodef He Hp.
  assert (HasDefault (getTags f).1 = false) as Hdef.
  { rewrite getTags_HasDefault, Hnodef. reflexivity. }
  assert (forall g (j : nat), g ∈ pre -> (List.length pre <= j)%nat ->
            reflect.FieldByName t (reflect.Name g) <> Some j) as Hfar.
  { intros g j Hg Hj Hfld.
    destruct (FieldByName_from_app_l pre (f :: post) g 0 Hg) as (i & Hi & Hlt).
    unfold reflect.FieldByName, t in Hfld. rewrite Hi in Hfld.
    injection Hfld as ->. lia. }
  unfold manageFields.
  change (fieldLoop ParseFloat toFloat32 environ props prefix t t vals)
    with (fieldLoop ParseFloat toFloat32 environ props prefix t
            (pre ++ f :: post) vals).
  rewrite fieldLoop_app. split.
  - intros vals' ->. apply fieldLoop_missing; assumption.
  - intros vals' err.
    destruct (fieldLoop ParseFloat toFloat32 environ props prefix t pre vals)
      as [vals1 [e|]|why] eqn:Hpre.
    + intros [= <- <-]. split; [discriminate|].
      intros j Hj. eapply fieldLoop_frame; [exact Hpre|]. eauto.
    + rewrite fieldLoop_missing by assumption.
      intros [= <- <-]. split; [discriminate|].
      intros j Hj. eapply fieldLoop_frame; [exact Hpre|]. eauto.
    + discriminate.
Qed.

(** *** Turns that reach the conversion *)

Lemma kindAt_field t f (j : nat) :
  t !! j = Some f -> kindAt t j = reflect.TypeKind f.
Proof. unfold kindAt. intros ->. reflexivity. Qed.

Ltac enter_turn Hset Hval :=
  destruct Hset as (Hexp & Hfld & Hat);
  pose proof (kindAt_field _ _ _ Hat) as Hkind;
  unfold manageField;
  rewrite (surjective_pairing (getTags _)), getTags_no_error, Hval, Hfld;
  unfold CanSet; rewrite Hat, Hexp; cbn [default from_option id].

Lemma manageField_string environ props prefix t f j vals value err :
  settableAt t f j ->
  reflect.TypeKind f = reflect.String ->
  getEnvValue environ (getTags f).1 props prefix = (value, err, true) ->
  manageField ParseFloat toFloat32 environ props prefix t f vals
    = Next (<[j := VString value]> vals).
Proof.
  intros Hset Hk Hval. enter_turn Hset Hval.
  unfold SetString. rewrite Hkind, Hk. reflexivity.
Qed.

Lemma manageField_int environ props prefix t f j vals value err :
  settableAt t f j ->
  isIntKind (reflect.TypeKind f) = true ->
  getEnvValue environ (getTags f).1 props prefix = (value, err, true) ->
  manageField ParseFloat toFloat32 environ props prefix t f vals =
    match strconv.Atoi value, intBits (reflect.TypeKind f) with
    | Some z, Some w => Next (<[j := VInt (wrap w z)]> vals)
    | Some z, None => Panic (SetOnWrongKind (reflect.TypeKind f))
    | None, _ => Fail (convError (Name (getTags f).1) "int")
    end.
Proof.
  intros Hset Hk Hval. enter_turn Hset Hval.
  unfold SetInt. rewrite Hkind.
  destruct (reflect.TypeKind f); try discriminate Hk; cbn;
    destruct (strconv.Atoi value); reflexivity.
Qed.

Lemma manageField_bool environ props prefix t f j vals value err :
  settableAt t f j ->
  reflect.TypeKind f = reflect.Bool ->
  getEnvValue environ (getTags f).1 props prefix = (value, err, true) ->
  manageField ParseFloat toFloat32 environ props prefix t f vals =
    match strconv.ParseBool value with
    | Some b => Next (<[j := VBool b]> vals)
    | None => Fail (convError (Name (getTags f).1) "bool")
    end.
Proof.
  intros Hset Hk Hval. enter_turn Hset Hval.
  unfold SetBool. rewrite Hkind, Hk. cbn.
  destruct (strconv.ParseBool value); reflexivity.
Qed.

Lemma manageField_float32 environ props prefix t f j vals value err :
  settableAt t f j ->
  reflect.TypeKind f = reflect.Float32 ->
  getEnvValue environ (getTags f).1 props prefix = (value, err, true) ->
  manageField ParseFloat toFloat32 environ props prefix t f vals =
    match ParseFloat value with
    | Some x => Next (<[j := VFloat32 (toFloat32 x)]> vals)
    | None => Fail (convError (Name (getTags f).1) "float")
    end.
Proof.
  intros Hset Hk Hval. enter_turn Hset Hval.
  unfold SetFloat. rewrite Hkind, Hk. cbn.
  destruct (ParseFloat value); reflexivity.
Qed.

(** A kind outside the four branches of the loop body is passed over:
    nothing is parsed, nothing is written, nothing fails. *)
Lemma manageField_other_kind environ props prefix t f vals value err :
  reflect.TypeKind f <> reflect.String ->
  isIntKind (reflect.TypeKind f) = false ->
  reflect.TypeKind f <> reflect.Bool ->
  isFloatKind (reflect.TypeKind f) = false ->
  getEnvValue environ (getTags f).1 props prefix = (value, err, true) ->
  manageField ParseFloat toFloat32 environ props prefix t f vals = Next vals.
Proof.
  intros Hs Hi Hb Hf Hval. unfold manageField.
  rewrite (surjective_pairing (getTags _)), getTags_no_error, Hval.
  destruct (CanSet t _); [|reflexivity].
  cbn zeta. rewrite Hi, Hf.
  rewrite !bool_decide_eq_false_2 by assumption. reflexivity.
Qed.

(** *** Where a returned error comes from *)

Lemma getEnvValue_error_inv environ eTags props prefix value e ok :
  getEnvValue environ eTags props prefix = (value, Some e, ok) ->
  HasDefault eTags = false /\ Critical eTags = true /\
  e = missingCritical (effectiveName eTags prefix).
Proof.
  unfold getEnvValue.
  destruct (environ !! effectiveName eTags prefix); [discriminate|].
  destruct (propsGet props (effectiveName eTags prefix)); [discriminate|].
  destruct (HasDefault eTags); [discriminate|].
  destruct (Critical eTags); [|discriminate].
  intros [= _ <- _]. auto.
Qed.

Lemma afterSet_not_Fail (r : PanicReason + list (@Value float32 float64)) err :
  afterSet r <> Fail err.
Proof. destruct r; discriminate. Qed.

Lemma manageField_Fail_inv environ props prefix t f vals err :
  manageField ParseFloat toFloat32 environ props prefix t f vals = Fail err ->
  (HasDefault (getTags f).1 = false /\ Critical (getTags f).1 = true /\
   err = missingCritical (effectiveName (getTags f).1 prefix)) \/
  (exists kind, kind ∈ ["int"; "bool"; "float"] /\
                err = convError (Name (getTags f).1) kind).
Proof.
  unfold manageField.
  rewrite (surjective_pairing (getTags _)), getTags_no_error.
  destruct (getEnvValue environ (getTags f).1 props prefix)
    as [[value e] ok] eqn:Hval.
  destruct ok.
  - destruct (CanSet t _); [|discriminate].
    cbn zeta. repeat case_match; try discriminate;
      try (intros Hbad; exfalso; exact (afterSet_not_Fail _ _ Hbad));
      intros [= <-]; right; eexists; (split; [|reflexivity]);
      repeat first [apply list_elem_of_here | apply list_elem_of_further].
  - destruct e as [e|]; [|discriminate].
    intros [= <-]. left. eapply getEnvValue_error_inv. exact Hval.
Qed.

Lemma fieldLoop_error_origin environ props prefix t todo vals vals' err :
  fieldLoop ParseFloat toFloat32 environ props prefix t todo vals
    = Returned vals' (Some err) ->
  exists g, g ∈ todo /\
    manageField ParseFloat toFloat32 environ props prefix t g vals' = Fail err.
Proof.
  revert vals. induction todo as [|f todo IH]; intros vals; simpl.
  - discriminate.
  - destruct (manageField ParseFloat toFloat32 environ props prefix t f vals)
      as [vals1|e|why] eqn:Hf.
    + intros Hloop. destruct (IH _ Hloop) as (g & Hg & Hfail).
      exists g. split; [set_solver | exact Hfail].
    + intros [= <- <-]. exists f. split; [set_solver | exact Hf].
    + discriminate.
Qed.

(** *** Conversions *)

(** C5 (as amended). For an exported Boolean field for which the lookup
    produced a value: the six spellings 1, t, T, TRUE, true, True set the
    field to true, the six spellings 0, f, F, FALSE, false, False set it
    to false, and every other string (other casings of these words
    included) ends the call with the bool conversion error that names the
    lookup name of the field. *)
Theorem C5_bool_coercion environ props prefix t f j post vals value err :
  settableAt t f j ->
  reflect.TypeKind f = reflect.Bool ->
  getEnvValue environ (getTags f).1 props prefix = (value, err, true) ->
  (value ∈ ["1"; "t"; "T"; "TRUE"; "true"; "True"] ->
   fieldLoop ParseFloat toFloat32 environ props prefix t (f :: post) vals
   = fieldLoop ParseFloat toFloat32 environ props prefix t post
       (<[j := VBool true]> vals)) /\
  (value ∈ ["0"; "f"; "F"; "FALSE"; "false"; "False"] ->
   fieldLoop ParseFloat toFloat32 environ props prefix t (f :: post) vals
   = fieldLoop ParseFloat toFloat32 environ props prefix t post
       (<[j := VBool false]> vals)) /\
  (value ∉ ["1"; "t"; "T"; "TRUE"; "true"; "True";
            "0"; "f"; "F"; "FALSE"; "false"; "False"] ->
   fieldLoop ParseFloat toFloat32 environ props prefix t (f :: post) vals
   = Returned vals
       (Some ("Error converting field " +:+ Name (getTags f).1 +:+ " to bool"))).
Proof.
  intros Hset Hk Hval. cbn [fieldLoop].
  rewrite (manageField_bool _ _ _ _ _ _ _ _ _ Hset Hk Hval).
  unfold strconv.ParseBool. repeat split.
  - intros Hin. rewrite bool_decide_eq_true_2 by exact Hin. reflexivity.
  - intros Hin.
    repeat (apply elem_of_cons in Hin as [-> | Hin]); try reflexivity.
    by apply elem_of_nil in Hin.
  - intros Hnot.
    change (value ∉ ["1"; "t"; "T"; "TRUE"; "true"; "True"]
                    ++ ["0"; "f"; "F"; "FALSE"; "false"; "False"]) in Hnot.
    apply not_elem_of_app in Hnot as [Hnt Hnf].
    rewrite !bool_decide_eq_false_2 by assumption. reflexivity.
Qed.

(** *** Targets that are not a pointer to a struct *)

(** C6 (as amended). A target that is not a non-nil pointer to a struct
    makes the load call panic inside [reflect]: the call does not return,
    with or without an error. Reading the tags of a field never fails. *)
Theorem C6_non_struct_target_panics (fs : FileSystem) environ
    (envStruct : option (@Object float32 float64)) prefix (fileName : string) :
  isStructPointer envStruct = false ->
  (exists why,
     loadVariables ParseFloat toFloat32 fs environ envStruct prefix fileName
     = Panicked why) /\
  (forall f, (getTags f).2 = None).
Proof.
  intros Hshape. split; [|exact getTags_no_error].
  unfold loadVariables, manageFields.
  destruct envStruct as [[t vals|[[t vals|target|k]|]|k]|];
    try discriminate Hshape; eauto.
Qed.

(** *** The properties file *)

(** C9. When the properties file cannot be loaded the call goes on as if
    there were no properties source: its outcome is that of resolving the
    fields against the environment and the defaults alone, and an error it
    returns is the missing-field or conversion error of one of the
    fields, never the error of loading the file. *)
Theorem C9_properties_failure_recovered (fs : FileSystem) environ
    (envStruct : option (@Object float32 float64)) prefix (fileName : string)
    (e : error) :
  fs fileName = inl e ->
  loadVariables ParseFloat toFloat32 fs environ envStruct prefix fileName
  = manageFields ParseFloat toFloat32 environ envStruct None prefix /\
  (forall vals err,
     loadVariables ParseFloat toFloat32 fs environ envStruct prefix fileName
     = Returned vals (Some err) ->
     exists t vals0 f,
       envStruct = Some (PointerObj (Some (StructObj t vals0))) /\ f ∈ t /\
       (err = missingCritical (effectiveName (getTags f).1 prefix) \/
        exists kind, kind ∈ ["int"; "bool"; "float"] /\
                     err = convError (Name (getTags f).1) kind)).
Proof.
  intros Hload. unfold loadVariables. rewrite Hload. split; [reflexivity|].
  intros vals err. unfold manageFields.
  destruct envStruct as [[t vals0|[[t vals0|target|k]|]|k]|]; try discriminate.
  intros Hloop. apply fieldLoop_error_origin in Hloop as (g & Hg & Hfail).
  exists t, vals0, g. split; [reflexivity|]. split; [exact Hg|].
  apply manageField_Fail_inv in Hfail as [(_ & _ & ->) | Hconv]; auto.
Qed.

(** *** Defaults and the mandatory check *)

(** C10. A field that declares a default always resolves to a value, so
    its turn never ends in the missing-field error, whether or not it is
    marked critical; a missing-field error returned by the call belongs to
    another field, one that is critical and declares no default. *)
Theorem C10_default_shadows_mandatory environ props prefix t f vals d :
  reflect.Lookup (reflect.Tag f) "def" = Some d ->
  (exists value,
     getEnvValue environ (getTags f).1 props prefix = (value, None, true)) /\
  (forall key,
     manageField ParseFloat toFloat32 environ props prefix t f vals
     <> Fail (missingCritical key)) /\
  (forall todo vals' key,
     fieldLoop ParseFloat toFloat32 environ props prefix t todo vals
     = Returned vals' (Some (missingCritical key)) ->
     exists g, g ∈ todo /\ g <> f /\
       reflect.Lookup (reflect.Tag g) "def" = None /\
       Critical (getTags g).1 = true).
Proof.
  intros Hd. destruct (getTags_Default f d Hd) as [Hhas _].
  assert (forall g vals0 key,
            manageField ParseFloat toFloat32 environ props prefix t g vals0
            = Fail (missingCritical key) ->
            reflect.Lookup (reflect.Tag g) "def" = None /\
            Critical (getTags g).1 = true) as Hmiss.
  { intros g vals0 key Hfail.
    apply manageField_Fail_inv in Hfail as [(Hno & Hcrit & _) | (kind & _ & Hbad)].
    - split; [|exact Hcrit]. rewrite getTags_HasDefault in Hno.
      destruct (reflect.Lookup (reflect.Tag g) "def"); [|reflexivity].
      rewrite bool_decide_eq_true_2 in Hno by eauto. discriminate.
    - symmetry in Hbad. exfalso. exact (convError_not_missing _ _ _ Hbad). }
  repeat split.
  - unfold getEnvValue.
    destruct (environ !! _); [eauto|]. destruct (propsGet props _); [eauto|].
    rewrite Hhas. eauto.
  - intros key Hfail. apply Hmiss in Hfail as [Hnone _]. congruence.
  - intros todo vals' key Hloop.
    apply fieldLoop_error_origin in Hloop as (g & Hg & Hfail).
    apply Hmiss in Hfail as [Hnone Hcrit].
    exists g. repeat split; try assumption. intros ->. congruence.
Qed.

(** *** Kinds the loop body passes over *)

(** C3, at the failing input. A struct with the single exported field
    [Ratio float64], and [Ratio] set in the environment to any string, a
    well-formed number or not: the call returns nil and the field keeps the
    value it had. The test for float kinds names [Float32] twice and
    [Float64] never. *)
Theorem C3_float64_field_never_set environ props (raw : string) (x0 : float64) :
  manageFields ParseFloat toFloat32 (<["Ratio" := raw]> environ)
    (Some (PointerObj (Some (StructObj [Examples.fRatio] [VFloat64 x0]))))
    props ""
  = Returned [VFloat64 x0] None.
Proof.
  unfold manageFields. cbn [fieldLoop].
  rewrite (manageField_other_kind _ _ _ _ _ _ raw None);
    [reflexivity | discriminate | reflexivity | discriminate | reflexivity |].
  apply getEnvValue_env. apply lookup_insert_eq.
Qed.

(** C4, at the failing input. A struct with the single exported field
    [Count int16], and [Count] set in the environment to any string, a
    decimal number or not: the call returns nil and the field keeps the
    value it had. The test for integer kinds lists [Int], [Int8], [Int32]
    and [Int64] and leaves [Int16] out. *)
Theorem C4_int16_field_never_set environ props (raw : string) (z0 : Z) :
  manageFields ParseFloat toFloat32 (<["Count" := raw]> environ)
    (Some (PointerObj (Some (StructObj [Examples.fCount] [VInt z0]))))
    props ""
  = Returned [VInt z0] None.
Proof.
  unfold manageFields. cbn [fieldLoop].
  rewrite (manageField_other_kind _ _ _ _ _ _ raw None);
    [reflexivity | discriminate | reflexivity | discriminate | reflexivity |].
  apply getEnvValue_env. apply lookup_insert_eq.
Qed.

End EngineFacts.

Lemma C2_missing_critical_fails_fast_witness :
  manageFields Examples.parseNoFloat Examples.convNoFloat ∅
    (Some (PointerObj (Some (StructObj Examples.tConfig Examples.zeroConfig))))
    (Some Examples.propsPort) "APP"
  = Returned [VInt 8080; VString ""; VBool false]
      (Some "Critical Config field APP_HOST missing from the environment").
Proof.
  destruct (C2_missing_critical_fails_fast
              Examples.parseNoFloat Examples.convNoFloat
              ∅ (Some Examples.propsPort) "APP"
              [Examples.fPort] Examples.fHost [Examples.fDebug]
              Examples.zeroConfig) as [Hret _];
    [reflexivity | reflexivity | reflexivity | reflexivity |].
  apply Hret. reflexivity.
Defined.

(** ** The statements above on the example data *)

(** C2 (as stated) fails: of two mandatory fields that are both in neither
    source and without default, the second meets every condition, yet the
    error the call returns names the first, not the second. *)
Lemma C2_second_missing_field_not_named :
  Critical (getTags MoreExamples.fBeta).1 = true /\
  reflect.Lookup (reflect.Tag MoreExamples.fBeta) "def" = None /\
  (∅ : Environ) !! effectiveName (getTags MoreExamples.fBeta).1 "" = None /\
  propsGet None (effectiveName (getTags MoreExamples.fBeta).1 "") = None /\
  manageFields Examples.parseNoFloat Examples.convNoFloat ∅
    (Some (PointerObj (Some (StructObj [MoreExamples.fAlpha; MoreExamples.fBeta]
                               [VString ""; VString ""]))))
    None ""
  = Returned [VString ""; VString ""]
      (Some "Critical Config field ALPHA missing from the environment") /\
  "Critical Config field ALPHA missing from the environment"
  <> missingCritical (effectiveName (getTags MoreExamples.fBeta).1 "").
Proof. repeat split. discriminate. Qed.

Lemma C5_bool_coercion_witness :
  fieldLoop Examples.parseNoFloat Examples.convNoFloat
    {[ "DEBUG" := "T" ]} None "" Examples.tConfig [Examples.fDebug]
    Examples.zeroConfig
  = Returned [VInt 0; VString ""; VBool true] None.
Proof.
  destruct (C5_bool_coercion Examples.parseNoFloat Examples.convNoFloat
              {[ "DEBUG" := "T" ]} None "" Examples.tConfig Examples.fDebug
              2%nat [] Examples.zeroConfig "T" None) as (Htrue & _ & _).
  - repeat split.
  - reflexivity.
  - reflexivity.
  - rewrite Htrue; [reflexivity|].
    apply list_elem_of_further, list_elem_of_further, list_elem_of_here.
Defined.

(** C5 (as stated) fails: [tRuE] is a casing of [true], and an exported
    Boolean field that resolves to it ends the call with the conversion
    error instead of being set. *)
Lemma C5_mixed_case_rejected :
  strings.ToLower "tRuE" = "true" /\
  manageFields Examples.parseNoFloat Examples.convNoFloat
    {[ "DEBUG" := "tRuE" ]}
    (Some (PointerObj (Some (StructObj [Examples.fDebug] [VBool false]))))
    None ""
  = Returned [VBool false] (Some "Error converting field DEBUG to bool").
Proof. split; reflexivity. Qed.

Lemma C6_non_struct_target_panics_witness :
  exists why,
    loadVariables Examples.parseNoFloat Examples.convNoFloat Examples.noFiles
      Examples.envHost
      (Some (StructObj Examples.tConfig Examples.zeroConfig))
      "" "app.properties"
    = Panicked why.
Proof.
  apply (C6_non_struct_target_panics Examples.parseNoFloat Examples.convNoFloat
           Examples.noFiles Examples.envHost
           (Some (StructObj Examples.tConfig Examples.zeroConfig))
           "" "app.properties").
  reflexivity.
Defined.

(** C6 (as stated) fails: handed the struct itself instead of a pointer to
    it, the load call panics in [reflect.Value.Elem]; no error is
    returned. *)
Lemma C6_struct_by_value_panics :
  isStructPointer (Some (StructObj Examples.tConfig Examples.zeroConfig)) = false /\
  ~ (exists vals err,
       LoadVariables Examples.parseNoFloat Examples.convNoFloat
         Examples.noFiles Examples.envHost
         (Some (StructObj Examples.tConfig Examples.zeroConfig))
       = Returned vals (Some err)).
Proof.
  split; [reflexivity|]. intros (vals & err & Hret). discriminate Hret.
Qed.

Lemma C9_properties_failure_recovered_witness :
  loadVariables Examples.parseNoFloat Examples.convNoFloat Examples.noFiles
    Examples.envHost
    (Some (PointerObj (Some (StructObj Examples.tConfig Examples.zeroConfig))))
    "" "app.properties"
  = manageFields Examples.parseNoFloat Examples.convNoFloat Examples.envHost
      (Some (PointerObj (Some (StructObj Examples.tConfig Examples.zeroConfig))))
      None "".
Proof.
  apply (C9_properties_failure_recovered
           Examples.parseNoFloat Examples.convNoFloat Examples.noFiles
           Examples.envHost
           (Some (PointerObj (Some (StructObj Examples.tConfig Examples.zeroConfig))))
           "" "app.properties"
           "open app.properties: no such file or directory").
  reflexivity.
Defined.

Lemma C10_default_shadows_mandatory_witness :
  Critical (getTags Examples.fMode).1 = true /\
  exists value,
    getEnvValue ∅ (getTags Examples.fMode).1 None "" = (value, None, true).
Proof.
  split; [reflexivity|].
  apply (C10_default_shadows_mandatory
           Examples.parseNoFloat Examples.convNoFloat ∅ None ""
           [Examples.fMode] Examples.fMode [VString ""] "dev").
  reflexivity.
Defined.

(** ** The scenarios of the usage notes, and two further observations *)

Example scenario_defaults_and_env :
  LoadVariables Examples.parseNoFloat Examples.convNoFloat Examples.noFiles
    Examples.envHost
    (Some (PointerObj (Some (StructObj Examples.tConfig Examples.zeroConfig))))
  = Returned [VInt 8080; VString "example.com"; VBool false] None.
Proof. reflexivity. Qed.

Example scenario_not_a_number :
  LoadVariables Examples.parseNoFloat Examples.convNoFloat Examples.noFiles
    {[ "PORT" := "notanumber" ]}
    (Some (PointerObj (Some (StructObj Examples.tConfig Examples.zeroConfig))))
  = Returned Examples.zeroConfig (Some "Error converting field PORT to int").
Proof. reflexivity. Qed.

(** [strconv.Atoi] checks the range of [int]; a narrower field wraps. *)
Example int8_field_wraps :
  manageFields Examples.parseNoFloat Examples.convNoFloat {[ "Tiny" := "300" ]}
    (Some (PointerObj (Some (StructObj [Examples.fTiny] [VInt 0])))) None ""
  = Returned [VInt 44] None.
Proof. reflexivity. Qed.

(** The [CanSet] guard comes before the conversion: a field that is not
    exported is neither converted nor written, whatever it resolves to. *)
Example unexported_field_skipped :
  manageFields Examples.parseNoFloat Examples.convNoFloat
    {[ "secret" := "maybe" ]}
    (Some (PointerObj (Some (StructObj [Examples.fSecret] [VBool false]))))
    None ""
  = Returned [VBool false] None.
Proof. reflexivity. Qed.

(** ** Further properties of the tags and of the lookup *)

(** A field is critical exactly when it carries a [crit] tag whose value,
    lower-cased, is [true], [y] or [t]; any other value, and the absence of
    the tag, leave it optional without an error. *)
Theorem getTags_Critical_iff (f : reflect.StructField) :
  Critical (getTags f).1 = true <->
  exists c, reflect.Lookup (reflect.Tag f) "crit" = Some c /\
            strings.ToLower c ∈ ["true"; "y"; "t"].
Proof.
  unfold getTags.
  destruct (reflect.Lookup (reflect.Tag f) "mvenv");
    destruct (reflect.Lookup (reflect.Tag f) "crit") as [c|];
    destruct (reflect.Lookup (reflect.Tag f) "def"); cbn;
    try (split; [discriminate | intros (c' & Hc & _); discriminate]).
  all: destruct (decide (strings.ToLower c = "true")) as [Ht|Ht];
    [rewrite bool_decide_eq_true_2 by exact Ht; cbn; split;
       [intros _; exists c; split; [reflexivity|]; rewrite Ht; apply list_elem_of_here
       | reflexivity]|].
  all: rewrite (bool_decide_eq_false_2 _ Ht); cbn.
  all: destruct (decide (strings.ToLower c = "y")) as [Hy|Hy];
    [rewrite bool_decide_eq_true_2 by exact Hy; cbn; split;
       [intros _; exists c; split; [reflexivity|]; rewrite Hy;
        apply list_elem_of_further, list_elem_of_here
       | reflexivity]|].
  all: rewrite (bool_decide_eq_false_2 _ Hy); cbn.
  all: destruct (decide (strings.ToLower c = "t")) as [Hs|Hs];
    [rewrite bool_decide_eq_true_2 by exact Hs; cbn; split;
       [intros _; exists c; split; [reflexivity|]; rewrite Hs;
        apply list_elem_of_further, list_elem_of_further, list_elem_of_here
       | reflexivity]|].
  all: rewrite (bool_decide_eq_false_2 _ Hs); cbn.
  all: split; [discriminate|].
  all: intros (c' & [= <-] & Hin).
  all: repeat (apply elem_of_cons in Hin as [Hin | Hin]; [congruence|]).
  all: by apply elem_of_nil in Hin.
Qed.

(** The three results of [getEnvValue] hang together: [ok] is set exactly
    when one of the three sources has a value, and then the error is nil;
    when [ok] is not set the string is empty; and an error is returned
    exactly when nothing was found for a critical field. *)
Theorem getEnvValue_result_shape environ eTags props prefix value err ok :
  getEnvValue environ eTags props prefix = (value, err, ok) ->
  (ok = true <->
     is_Some (environ !! effectiveName eTags prefix) \/
     is_Some (propsGet props (effectiveName eTags prefix)) \/
     HasDefault eTags = true) /\
  (ok = true -> err = None) /\
  (ok = false -> value = "") /\
  (is_Some err <-> ok = false /\ Critical eTags = true).
Proof.
  unfold getEnvValue.
  destruct (environ !! effectiveName eTags prefix) as [v|];
    [intros [= <- <- <-]; unfold is_Some; naive_solver|].
  destruct (propsGet props (effectiveName eTags prefix)) as [v|];
    [intros [= <- <- <-]; unfold is_Some; naive_solver|].
  destruct (HasDefault eTags);
    [intros [= <- <- <-]; unfold is_Some; naive_solver|].
  destruct (Critical eTags); intros [= <- <- <-]; unfold is_Some; naive_solver.
Qed.

Lemma getEnvValue_result_shape_witness :
  is_Some (Some (missingCritical "HOST")) <->
  false = false /\ Critical (getTags Examples.fHost).1 = true.
Proof.
  apply (getEnvValue_result_shape ∅ (getTags Examples.fHost).1 None ""
           "" (Some (missingCritical "HOST")) false).
  reflexivity.
Defined.

Lemma append_cancel_l (s a b : string) : s +:+ a = s +:+ b -> a = b.
Proof. induction s as [|c s IH]; cbn; [auto|]. intros [= H]. auto. Qed.

(** Under one prefix two fields are asked for under the same key only if
    they have the same lookup name: prefixing keeps distinct names apart. *)
Theorem effectiveName_inj (e1 e2 : envTags) (prefix : string) :
  effectiveName e1 prefix = effectiveName e2 prefix -> Name e1 = Name e2.
Proof.
  unfold effectiveName. destruct (bool_decide (prefix ≠ "")); [|auto].
  intros H. apply append_cancel_l in H. apply append_cancel_l in H. exact H.
Qed.

Lemma effectiveName_inj_witness :
  Name (getTags Examples.fPort).1 = Name (mkEnvTags "PORT" true false "").
Proof.
  apply (effectiveName_inj (getTags Examples.fPort).1
           (mkEnvTags "PORT" true false "") "APP").
  reflexivity.
Defined.

(** ** Further properties of the field loop *)

Lemma FieldByName_from_found (t : reflect.StructType) (name : string) (i j : nat) :
  reflect.FieldByName_from t name i = Some j ->
  exists f, t !! (j - i)%nat = Some f /\ reflect.Name f = name /\ (i <= j)%nat.
Proof.
  revert i. induction t as [|h t IH]; intros i; cbn; [discriminate|].
  destruct (decide (reflect.Name h = name)) as [Hn|Hn].
  - intros [= <-]. exists h. rewrite Nat.sub_diag. auto.
  - intros Hrec. destruct (IH _ Hrec) as (f & Hf & Hname & Hle).
    exists f. split; [|split; [exact Hname | lia]].
    replace (j - i)%nat with (S (j - S i)) by lia. exact Hf.
Qed.

Lemma FieldByName_from_own (t : reflect.StructType) (f : reflect.StructField)
    (i j : nat) :
  NoDup (fieldNames t) -> t !! j = Some f ->
  reflect.FieldByName_from t (reflect.Name f) i = Some (i + j)%nat.
Proof.
  revert i j. induction t as [|h t IH]; intros i j Hnd Hj; [discriminate|].
  unfold fieldNames in Hnd. rewrite fmap_cons in Hnd.
  apply NoDup_cons in Hnd as [Hfresh Hnd]. cbn.
  destruct j as [|j]; cbn in Hj.
  - injection Hj as ->. rewrite decide_True by reflexivity.
    f_equal. lia.
  - rewrite decide_False.
    + rewrite (IH (S i) j Hnd Hj). f_equal. lia.
    + intros Heq. apply Hfresh. rewrite Heq.
      apply list_elem_of_fmap. exists f. split; [reflexivity|].
      eapply list_elem_of_lookup_2. exact Hj.
Qed.

(** In a struct type whose field names are distinct, looking a field up by
    its own name gives back its index, and the index gives back the
    field. *)
Theorem FieldByName_own_index (t : reflect.StructType)
    (f : reflect.StructField) (j : nat) :
  NoDup (fieldNames t) ->
  (t !! j = Some f -> reflect.FieldByName t (reflect.Name f) = Some j) /\
  (reflect.FieldByName t (reflect.Name f) = Some j -> f ∈ t -> t !! j = Some f).
Proof.
  intros Hnd. split.
  - intros Hj. unfold reflect.FieldByName.
    rewrite (FieldByName_from_own t f 0 j Hnd Hj). reflexivity.
  - intros Hfld Hin. apply list_elem_of_lookup_1 in Hin as [k Hk].
    unfold reflect.FieldByName in Hfld.
    rewrite (FieldByName_from_own t f 0 k Hnd Hk) in Hfld.
    injection Hfld as <-. exact Hk.
Qed.

Lemma FieldByName_own_index_witness :
  reflect.FieldByName Examples.tConfig (reflect.Name Examples.fDebug) = Some 2%nat.
Proof.
  apply (FieldByName_own_index Examples.tConfig Examples.fDebug 2).
  - refine (bool_decide_unpack _ _). vm_compute. exact I.
  - reflexivity.
Defined.

Lemma wrap_range (w x : Z) :
  0 < w -> - 2 ^ (w - 1) <= wrap w x < 2 ^ (w - 1).
Proof.
  intros Hw. unfold wrap.
  assert (2 ^ w = 2 * 2 ^ (w - 1)) as Hpow.
  { rewrite <- Z.pow_succ_r by lia. f_equal. lia. }
  assert (0 < 2 ^ (w - 1)) by (apply Z.pow_pos_nonneg; lia).
  pose proof (Z.mod_pos_bound (x + 2 ^ (w - 1)) (2 ^ w)). lia.
Qed.

Lemma wrap_fits (w x : Z) :
  0 < w -> - 2 ^ (w - 1) <= x < 2 ^ (w - 1) -> wrap w x = x.
Proof.
  intros Hw Hx. unfold wrap.
  assert (2 ^ w = 2 * 2 ^ (w - 1)) as Hpow.
  { rewrite <- Z.pow_succ_r by lia. f_equal. lia. }
  rewrite Z.mod_small by lia. lia.
Qed.

Lemma intBits_pos (k : reflect.Kind) (w : Z) : intBits k = Some w -> 0 < w.
Proof. destruct k; cbn; intros [= <-]; unfold strconv.IntSize; lia. Qed.

Section EngineMore.

Context {float32 float64 : Type}.
Variable ParseFloat : string -> option float64.
Variable toFloat32 : float64 -> float32.

Implicit Types (t todo pre post : list reflect.StructField)
               (f g : reflect.StructField)
               (vals : list (@Value float32 float64))
               (environ : Environ) (props : option Properties)
               (prefix : string).

(** What a turn does is fixed by the field and the sources, not by the
    content of the struct: it passes, or it overwrites one exported field
    with a value of the kind of that field, or it fails, or it panics. *)
Lemma manageField_uniform environ props prefix t f :
  (forall vals,
     manageField ParseFloat toFloat32 environ props prefix t f vals = Next vals) \/
  (exists j g v,
     reflect.FieldByName t (reflect.Name f) = Some j /\ t !! j = Some g /\
     reflect.IsExported g = true /\ valueOfKind (reflect.TypeKind g) v /\
     forall vals,
       manageField ParseFloat toFloat32 environ props prefix t f vals
       = Next (<[j := v]> vals)) \/
  (exists err, forall vals,
     manageField ParseFloat toFloat32 environ props prefix t f vals = Fail err) \/
  (exists why, forall vals,
     manageField ParseFloat toFloat32 environ props prefix t f vals = Panic why).
Proof.
  unfold manageField.
  rewrite (surjective_pairing (getTags _)), getTags_no_error.
  destruct (getEnvValue environ (getTags f).1 props prefix) as [[value e] ok].
  destruct ok; [|destruct e; [right; right; left; eauto | left; auto]].
  destruct (reflect.FieldByName t (reflect.Name f)) as [j|]; [|left; auto].
  unfold CanSet. destruct (t !! j) as [g|] eqn:Hg; [|left; auto].
  destruct (reflect.IsExported g) eqn:Hexp; [|left; auto].
  cbn [default from_option id].
  assert (kindAt t j = reflect.TypeKind g) as Hkind
    by (unfold kindAt; rewrite Hg; reflexivity).
  destruct (bool_decide (reflect.TypeKind f = reflect.String)).
  { unfold SetString. rewrite Hkind.
    destruct (reflect.TypeKind g) eqn:Hk;
      try (right; right; right; eexists; intros; reflexivity).
    right; left. exists j, g, (VString value). rewrite Hk. cbn. auto 10. }
  destruct (isIntKind (reflect.TypeKind f)).
  { destruct (strconv.Atoi value) as [z|]; [|right; right; left; eauto].
    unfold SetInt. rewrite Hkind.
    destruct (intBits (reflect.TypeKind g)) as [w|] eqn:Hw;
      [|right; right; right; eexists; intros; reflexivity].
    right; left. exists j, g, (VInt (wrap w z)).
    repeat split; auto. exists w. split; [exact Hw|].
    apply wrap_range. eapply intBits_pos. exact Hw. }
  destruct (bool_decide (reflect.TypeKind f = reflect.Bool)).
  { destruct (strconv.ParseBool value) as [b|]; [|right; right; left; eauto].
    unfold SetBool. rewrite Hkind.
    destruct (reflect.TypeKind g) eqn:Hk;
      try (right; right; right; eexists; intros; reflexivity).
    right; left. exists j, g, (VBool b). rewrite Hk. cbn. auto 10. }
  destruct (isFloatKind (reflect.TypeKind f)); [|left; auto].
  destruct (ParseFloat value) as [x|]; [|right; right; left; eauto].
  unfold SetFloat. rewrite Hkind.
  destruct (reflect.TypeKind g) eqn:Hk;
    try (right; right; right; eexists; intros; reflexivity).
  - right; left. exists j, g, (VFloat32 (toFloat32 x)). rewrite Hk. cbn. auto 10.
  - right; left. exists j, g, (VFloat64 x). rewrite Hk. cbn. auto 10.
Qed.

(** A call that returns leaves the struct with as many fields as it had. *)
Lemma fieldLoop_length environ props prefix t todo vals vals' err :
  fieldLoop ParseFloat toFloat32 environ props prefix t todo vals
    = Returned vals' err ->
  List.length vals' = List.length vals.
Proof.
  revert vals. induction todo as [|f todo IH]; intros vals; cbn [fieldLoop].
  - intros [= <- _]. reflexivity.
  - destruct (manageField_uniform environ props prefix t f)
      as [Hstep | [(j & g & v & _ & _ & _ & _ & Hstep) | [[e Hstep] | [why Hstep]]]];
      rewrite Hstep.
    + apply IH.
    + intros Hloop. rewrite (IH _ Hloop). apply length_insert.
    + intros [= <- _]. reflexivity.
    + discriminate.
Qed.

Lemma fieldLoop_unexported environ props prefix t todo vals vals' err
    (j : nat) g :
  fieldLoop ParseFloat toFloat32 environ props prefix t todo vals
    = Returned vals' err ->
  t !! j = Some g -> reflect.IsExported g = false ->
  vals' !! j = vals !! j.
Proof.
  intros Hloop Hg Hexp. revert vals Hloop.
  induction todo as [|f todo IH]; intros vals; cbn [fieldLoop].
  - intros [= <- _]. reflexivity.
  - destruct (manageField_uniform environ props prefix t f)
      as [Hstep | [(j' & g' & v & _ & Hg' & Hexp' & _ & Hstep)
                  | [[e Hstep] | [why Hstep]]]];
      rewrite Hstep.
    + apply IH.
    + intros Hloop. rewrite (IH _ Hloop).
      apply list_lookup_insert_ne. intros ->. congruence.
    + intros [= <- _]. reflexivity.
    + discriminate.
Qed.

(** A field that is not exported is never modified by a call, whatever
    the sources hold under its name. *)
Theorem unexported_field_never_written environ props prefix t vals vals' err
    (j : nat) g :
  manageFields ParseFloat toFloat32 environ
    (Some (PointerObj (Some (StructObj t vals)))) props prefix
    = Returned vals' err ->
  t !! j = Some g -> reflect.IsExported g = false ->
  vals' !! j = vals !! j.
Proof. unfold manageFields. apply fieldLoop_unexported. Qed.

Lemma Forall2_insert_r {A B} (P : A -> B -> Prop) (l : list A) (k : list B)
    (j : nat) (y : B) :
  Forall2 P l k -> (forall x, l !! j = Some x -> P x y) ->
  Forall2 P l (<[j := y]> k).
Proof.
  intros HF. revert j. induction HF as [|x z l k Hxz HF IH]; intros j Hj.
  - constructor.
  - destruct j as [|j]; cbn.
    + constructor; [apply Hj; reflexivity | exact HF].
    + constructor; [exact Hxz | apply IH; exact Hj].
Qed.

Lemma fieldLoop_wellTyped environ props prefix t todo vals vals' err :
  fieldLoop ParseFloat toFloat32 environ props prefix t todo vals
    = Returned vals' err ->
  wellTyped t vals -> wellTyped t vals'.
Proof.
  revert vals. induction todo as [|f todo IH]; intros vals; cbn [fieldLoop].
  - intros [= <- _]. auto.
  - destruct (manageField_uniform environ props prefix t f)
      as [Hstep | [(j & g & v & _ & Hg & _ & Hv & Hstep)
                  | [[e Hstep] | [why Hstep]]]];
      rewrite Hstep.
    + apply IH.
    + intros Hloop Hty. apply (IH _ Hloop).
      apply Forall2_insert_r; [exact Hty|].
      intros x Hx. rewrite Hg in Hx. injection Hx as <-. exact Hv.
    + intros [= <- _]. auto.
    + discriminate.
Qed.

(** A call keeps the struct a value of its type: it has as many fields as
    before, and every field still holds a value of its own kind (an
    integer field one within its width). *)
Theorem call_keeps_struct_shape environ props prefix t vals vals' err :
  manageFields ParseFloat toFloat32 environ
    (Some (PointerObj (Some (StructObj t vals)))) props prefix
    = Returned vals' err ->
  List.length vals' = List.length vals /\
  (wellTyped t vals -> wellTyped t vals').
Proof.
  unfold manageFields. intros Hloop. split.
  - eapply fieldLoop_length. exact Hloop.
  - eapply fieldLoop_wellTyped. exact Hloop.
Qed.

(** *** Running the call again *)

Lemma fieldLoop_again environ props prefix t todo vals vals' err :
  NoDup (fieldNames todo) ->
  fieldLoop ParseFloat toFloat32 environ props prefix t todo vals
    = Returned vals' err ->
  fieldLoop ParseFloat toFloat32 environ props prefix t todo vals'
    = Returned vals' err.
Proof.
  intros Hnd. revert vals.
  induction todo as [|f todo IH]; intros vals; cbn [fieldLoop].
  - intros [= <- <-]. reflexivity.
  - unfold fieldNames in Hnd. rewrite fmap_cons in Hnd.
    apply NoDup_cons in Hnd as [Hfresh Hnd].
    destruct (manageField_uniform environ props prefix t f)
      as [Hstep | [(j & g & v & Hj & _ & _ & _ & Hstep)
                  | [[e Hstep] | [why Hstep]]]];
      rewrite !Hstep.
    + apply (IH Hnd).
    + intros Hloop.
      assert (vals' !! j = <[j := v]> vals !! j) as Hsame.
      { eapply fieldLoop_frame; [exact Hloop|].
        intros h Hh Hfld. apply Hfresh.
        unfold reflect.FieldByName in Hj, Hfld.
        apply FieldByName_from_found in Hj as (x & Hx & Hnx & _).
        apply FieldByName_from_found in Hfld as (y & Hy & Hny & _).
        rewrite Hx in Hy. injection Hy as <-.
        rewrite <- Hnx, Hny. apply list_elem_of_fmap. eauto. }
      assert (<[j := v]> vals' = vals') as ->.
      { destruct (decide (j < List.length vals)%nat) as [Hlt|Hge].
        - apply list_insert_id. rewrite Hsame.
          apply list_lookup_insert_eq. exact Hlt.
        - apply list_insert_ge.
          rewrite (fieldLoop_length _ _ _ _ _ _ _ _ Hloop), length_insert. lia. }
      apply (IH Hnd _ Hloop).
    + intros [= <- <-]. reflexivity.
    + discriminate.
Qed.

(** With distinct field names a call is idempotent: run again on the
    struct it left, with the same sources, it returns the same error or
    nil and changes nothing. *)
Theorem call_idempotent environ props prefix t vals vals' err :
  NoDup (fieldNames t) ->
  manageFields ParseFloat toFloat32 environ
    (Some (PointerObj (Some (StructObj t vals)))) props prefix
    = Returned vals' err ->
  manageFields ParseFloat toFloat32 environ
    (Some (PointerObj (Some (StructObj t vals')))) props prefix
    = Returned vals' err.
Proof. unfold manageFields. apply fieldLoop_again. Qed.

(** *** No panic on a struct with distinct field names *)

Lemma manageField_no_panic environ props prefix t f (j : nat) vals why :
  t !! j = Some f ->
  reflect.FieldByName t (reflect.Name f) = Some j ->
  manageField ParseFloat toFloat32 environ props prefix t f vals <> Panic why.
Proof.
  intros Hat Hfld. unfold manageField.
  rewrite (surjective_pairing (getTags _)), getTags_no_error.
  destruct (getEnvValue environ (getTags f).1 props prefix) as [[value e] ok].
  destruct ok; [|destruct e; discriminate].
  rewrite Hfld. unfold CanSet. rewrite Hat.
  destruct (reflect.IsExported f); [|discriminate].
  cbn [default from_option id].
  unfold SetString, SetInt, SetBool, SetFloat, kindAt. rewrite Hat.
  destruct (reflect.TypeKind f); cbn;
    repeat case_match; discriminate.
Qed.

Lemma fieldLoop_no_panic environ props prefix t todo vals :
  NoDup (fieldNames t) -> todo ⊆ t ->
  exists vals' err,
    fieldLoop ParseFloat toFloat32 environ props prefix t todo vals
    = Returned vals' err.
Proof.
  intros Hnd. revert vals.
  induction todo as [|f todo IH]; intros vals Hsub; cbn [fieldLoop]; [eauto|].
  assert (f ∈ t) as Hin by (apply Hsub; apply list_elem_of_here).
  apply list_elem_of_lookup_1 in Hin as [j Hj].
  pose proof (FieldByName_from_own t f 0 j Hnd Hj) as Hfld.
  destruct (manageField ParseFloat toFloat32 environ props prefix t f vals)
    as [vals1|e|why] eqn:Hstep.
  - apply IH. intros x Hx. apply Hsub. apply list_elem_of_further. exact Hx.
  - eauto.
  - exfalso. eapply manageField_no_panic; [exact Hj | exact Hfld | exact Hstep].
Qed.

(** Handed a pointer to a struct whose field names are distinct, the load
    call always returns: no [reflect] call in it panics, whatever the
    kinds of the fields and whatever the sources hold. *)
Theorem struct_pointer_never_panics (fs : FileSystem) environ prefix
    (fileName : string) t vals :
  NoDup (fieldNames t) ->
  exists vals' err,
    loadVariables ParseFloat toFloat32 fs environ
      (Some (PointerObj (Some (StructObj t vals)))) prefix fileName
    = Returned vals' err.
Proof.
  intros Hnd. unfold loadVariables, manageFields.
  apply fieldLoop_no_panic; [exact Hnd | reflexivity].
Qed.

(** *** What the call reads of its sources *)

Lemma fieldLoop_ext environ environ' props props' prefix t todo vals :
  (forall f, f ∈ todo ->
     getEnvValue environ (getTags f).1 props prefix
     = getEnvValue environ' (getTags f).1 props' prefix) ->
  fieldLoop ParseFloat toFloat32 environ props prefix t todo vals
  = fieldLoop ParseFloat toFloat32 environ' props' prefix t todo vals.
Proof.
  revert vals. induction todo as [|f todo IH]; intros vals Hsame; [reflexivity|].
  cbn [fieldLoop].
  assert (manageField ParseFloat toFloat32 environ props prefix t f vals
          = manageField ParseFloat toFloat32 environ' props' prefix t f vals)
    as ->.
  { unfold manageField.
    rewrite (surjective_pairing (getTags _)), getTags_no_error.
    rewrite (Hsame f) by apply list_elem_of_here. reflexivity. }
  destruct (manageField ParseFloat toFloat32 environ' props' prefix t f vals);
    [|reflexivity|reflexivity].
  apply IH. intros g Hg. apply Hsame. apply list_elem_of_further. exact Hg.
Qed.

(** The call reads its sources at the effective names of the fields of
    the struct and nowhere else: two environments and two properties
    sources that agree on those keys give the same outcome. *)
Theorem call_reads_only_field_keys environ environ' props props' prefix t vals :
  (forall f, f ∈ t ->
     environ !! effectiveName (getTags f).1 prefix
     = environ' !! effectiveName (getTags f).1 prefix /\
     propsGet props (effectiveName (getTags f).1 prefix)
     = propsGet props' (effectiveName (getTags f).1 prefix)) ->
  manageFields ParseFloat toFloat32 environ
    (Some (PointerObj (Some (StructObj t vals)))) props prefix
  = manageFields ParseFloat toFloat32 environ'
      (Some (PointerObj (Some (StructObj t vals)))) props' prefix.
Proof.
  intros Hsame. unfold manageFields. apply fieldLoop_ext.
  intros f Hf. destruct (Hsame f Hf) as [He Hp].
  unfold getEnvValue. rewrite He, Hp. reflexivity.
Qed.

(** The environment shadows the properties file: what the file holds
    under a key that is set in the environment has no influence on the
    outcome. *)
Theorem environment_shadows_properties environ props props' prefix
    (envStruct : option (@Object float32 float64)) :
  (forall key, environ !! key = None -> propsGet props key = propsGet props' key) ->
  manageFields ParseFloat toFloat32 environ envStruct props prefix
  = manageFields ParseFloat toFloat32 environ envStruct props' prefix.
Proof.
  intros Hsame. unfold manageFields.
  destruct envStruct as [[t vals|[[t vals|target|k]|]|k]|]; try reflexivity.
  apply fieldLoop_ext. intros f _. unfold getEnvValue.
  destruct (environ !! effectiveName (getTags f).1 prefix) eqn:He; [reflexivity|].
  rewrite (Hsame _ He). reflexivity.
Qed.

(** A properties file that cannot be loaded and one that loads without
    any key give the same outcome. *)
Theorem missing_file_as_empty_file (fs fs' : FileSystem) environ prefix
    (fileName : string) (envStruct : option (@Object float32 float64)) e :
  fs fileName = inl e -> fs' fileName = inr ∅ ->
  loadVariables ParseFloat toFloat32 fs environ envStruct prefix fileName
  = loadVariables ParseFloat toFloat32 fs' environ envStruct prefix fileName.
Proof.
  intros Hfs Hfs'. unfold loadVariables. rewrite Hfs, Hfs'.
  unfold manageFields.
  destruct envStruct as [[t vals|[[t vals|target|k]|]|k]|]; try reflexivity.
  apply fieldLoop_ext. intros f _. unfold getEnvValue, propsGet.
  rewrite lookup_empty. reflexivity.
Qed.

(** *** The turn of one field, kind by kind *)

(** An optional field that is in neither source and declares no default
    is passed over: the loop goes on with the struct unchanged, whatever
    the kind of the field. *)
Theorem optional_missing_field_skipped environ props prefix t f post vals :
  Critical (getTags f).1 = false ->
  reflect.Lookup (reflect.Tag f) "def" = None ->
  environ !! effectiveName (getTags f).1 prefix = None ->
  propsGet props (effectiveName (getTags f).1 prefix) = None ->
  fieldLoop ParseFloat toFloat32 environ props prefix t (f :: post) vals
  = fieldLoop ParseFloat toFloat32 environ props prefix t post vals.
Proof.
  intros Hcrit Hnodef He Hp. cbn [fieldLoop]. unfold manageField.
  rewrite (surjective_pairing (getTags _)), getTags_no_error.
  rewrite getEnvValue_absent by assumption.
  rewrite getTags_HasDefault, Hnodef, Hcrit. reflexivity.
Qed.

(** A field of a kind other than string, int, int8, int32, int64, bool and
    float32 that resolves to a value is passed over: nothing is converted,
    nothing is written and nothing fails. *)
Theorem unsupported_kind_skipped environ props prefix t f post vals value err :
  reflect.TypeKind f ∉ [reflect.String; reflect.Int; reflect.Int8;
                        reflect.Int32; reflect.Int64; reflect.Bool;
                        reflect.Float32] ->
  getEnvValue environ (getTags f).1 props prefix = (value, err, true) ->
  fieldLoop ParseFloat toFloat32 environ props prefix t (f :: post) vals
  = fieldLoop ParseFloat toFloat32 environ props prefix t post vals.
Proof.
  intros Hkind Hval. cbn [fieldLoop].
  rewrite (manageField_other_kind ParseFloat toFloat32 _ _ _ _ _ _ value err);
    [reflexivity | | | | | exact Hval];
    destruct (reflect.TypeKind f); try discriminate; try reflexivity;
    exfalso; apply Hkind;
    repeat first [apply list_elem_of_here | apply list_elem_of_further].
Qed.

(** An exported string field takes the resolved string as it is, the
    empty string included; this turn cannot fail. *)
Theorem string_field_set_verbatim environ props prefix t f j post vals value err :
  settableAt t f j ->
  reflect.TypeKind f = reflect.String ->
  getEnvValue environ (getTags f).1 props prefix = (value, err, true) ->
  fieldLoop ParseFloat toFloat32 environ props prefix t (f :: post) vals
  = fieldLoop ParseFloat toFloat32 environ props prefix t post
      (<[j := VString value]> vals).
Proof.
  intros Hset Hk Hval. cbn [fieldLoop].
  rewrite (manageField_string ParseFloat toFloat32 _ _ _ _ _ _ _ _ _ Hset Hk Hval).
  reflexivity.
Qed.

(** An exported field of kind int, int8, int32 or int64: when the resolved
    string is a decimal integer within the range of [int] the field is set
    to it, wrapped to the width of the field, and the loop goes on;
    otherwise the call ends with the int conversion error naming the
    lookup name. *)
Theorem int_field_converted environ props prefix t f j post vals value err :
  settableAt t f j ->
  reflect.TypeKind f ∈ [reflect.Int; reflect.Int8; reflect.Int32; reflect.Int64] ->
  getEnvValue environ (getTags f).1 props prefix = (value, err, true) ->
  (forall z, strconv.Atoi value = Some z ->
     exists w, intBits (reflect.TypeKind f) = Some w /\
       fieldLoop ParseFloat toFloat32 environ props prefix t (f :: post) vals
       = fieldLoop ParseFloat toFloat32 environ props prefix t post
           (<[j := VInt (wrap w z)]> vals)) /\
  (strconv.Atoi value = None ->
     fieldLoop ParseFloat toFloat32 environ props prefix t (f :: post) vals
     = Returned vals
         (Some ("Error converting field " +:+ Name (getTags f).1 +:+ " to int"))).
Proof.
  intros Hset Hk Hval. cbn [fieldLoop].
  assert (isIntKind (reflect.TypeKind f) = true) as Hint.
  { repeat (apply elem_of_cons in Hk as [-> | Hk]); try reflexivity.
    by apply elem_of_nil in Hk. }
  rewrite (manageField_int ParseFloat toFloat32 _ _ _ _ _ _ _ _ _ Hset Hint Hval).
  split.
  - intros z ->.
    destruct (intBits (reflect.TypeKind f)) as [w|] eqn:Hw; [eauto|].
    destruct (reflect.TypeKind f); discriminate.
  - intros ->. reflexivity.
Qed.

(** The integer written is the integer read whenever it fits the field:
    always for int and int64, and for int8 and int32 when the value lies
    within 8 or 32 bits. *)
Theorem int_field_exact environ props prefix t f j post vals value err z :
  settableAt t f j ->
  getEnvValue environ (getTags f).1 props prefix = (value, err, true) ->
  strconv.Atoi value = Some z ->
  reflect.TypeKind f = reflect.Int \/ reflect.TypeKind f = reflect.Int64 \/
  (reflect.TypeKind f = reflect.Int8 /\ - 128 <= z <= 127) \/
  (reflect.TypeKind f = reflect.Int32 /\ - 2147483648 <= z <= 2147483647) ->
  fieldLoop ParseFloat toFloat32 environ props prefix t (f :: post) vals
  = fieldLoop ParseFloat toFloat32 environ props prefix t post
      (<[j := VInt z]> vals).
Proof.
  intros Hset Hval Hz Hk. cbn [fieldLoop].
  pose proof (Atoi_range _ _ Hz) as Hrange.
  unfold strconv.minInt, strconv.maxInt, strconv.IntSize in Hrange.
  assert (isIntKind (reflect.TypeKind f) = true) as Hint
    by (destruct Hk as [-> | [-> | [[-> _] | [-> _]]]]; reflexivity).
  rewrite (manageField_int ParseFloat toFloat32 _ _ _ _ _ _ _ _ _ Hset Hint Hval).
  rewrite Hz.
  destruct Hk as [-> | [-> | [[-> Hfit] | [-> Hfit]]]]; cbn [intBits];
    unfold strconv.IntSize; rewrite wrap_fits; try reflexivity; lia.
Qed.

(** An exported float32 field: the resolved string goes through
    [strconv.ParseFloat] at 64 bits; on success the field is set to the
    result converted to float32, on failure the call ends with the float
    conversion error naming the lookup name. *)
Theorem float32_field_converted environ props prefix t f j post vals value err :
  settableAt t f j ->
  reflect.TypeKind f = reflect.Float32 ->
  getEnvValue environ (getTags f).1 props prefix = (value, err, true) ->
  fieldLoop ParseFloat toFloat32 environ props prefix t (f :: post) vals =
  match ParseFloat value with
  | Some x => fieldLoop ParseFloat toFloat32 environ props prefix t post
                (<[j := VFloat32 (toFloat32 x)]> vals)
  | None => Returned vals
              (Some ("Error converting field " +:+ Name (getTags f).1 +:+ " to float"))
  end.
Proof.
  intros Hset Hk Hval. cbn [fieldLoop].
  rewrite (manageField_float32 ParseFloat toFloat32 _ _ _ _ _ _ _ _ _ Hset Hk Hval).
  destruct (ParseFloat value); reflexivity.
Qed.

(** *** Errors and results of a whole call *)

Lemma getEnvValue_cases environ eTags props prefix value e ok :
  getEnvValue environ eTags props prefix = (value, e, ok) ->
  (ok = true /\ e = None) \/
  (ok = false /\
   environ !! effectiveName eTags prefix = None /\
   propsGet props (effectiveName eTags prefix) = None /\
   HasDefault eTags = false /\
   ((Critical eTags = true /\
     e = Some (missingCritical (effectiveName eTags prefix))) \/
    (Critical eTags = false /\ e = None))).
Proof.
  unfold getEnvValue.
  destruct (environ !! effectiveName eTags prefix);
    [intros [= <- <- <-]; auto|].
  destruct (propsGet props (effectiveName eTags prefix));
    [intros [= <- <- <-]; auto|].
  destruct (HasDefault eTags); [intros [= <- <- <-]; auto|].
  destruct (Critical eTags); intros [= <- <- <-]; right; auto 10.
Qed.

Lemma manageField_Fail_why environ props prefix t f vals err :
  manageField ParseFloat toFloat32 environ props prefix t f vals = Fail err ->
  (err = missingCritical (effectiveName (getTags f).1 prefix) /\
   Critical (getTags f).1 = true /\
   reflect.Lookup (reflect.Tag f) "def" = None /\
   environ !! effectiveName (getTags f).1 prefix = None /\
   propsGet props (effectiveName (getTags f).1 prefix) = None) \/
  (exists value,
     getEnvValue environ (getTags f).1 props prefix = (value, None, true) /\
     ((reflect.TypeKind f ∈ [reflect.Int; reflect.Int8; reflect.Int32; reflect.Int64] /\
       strconv.Atoi value = None /\
       err = convError (Name (getTags f).1) "int") \/
      (reflect.TypeKind f = reflect.Bool /\
       strconv.ParseBool value = None /\
       err = convError (Name (getTags f).1) "bool") \/
      (reflect.TypeKind f = reflect.Float32 /\
       ParseFloat value = None /\
       err = convError (Name (getTags f).1) "float"))).
Proof.
  unfold manageField.
  rewrite (surjective_pairing (getTags _)), getTags_no_error.
  pose proof (getTags_HasDefault f) as Hhas.
  remember (getTags f).1 as eTags eqn:HeTags. clear HeTags.
  destruct (getEnvValue environ eTags props prefix)
    as [[value e] ok] eqn:Hval.
  pose proof (getEnvValue_cases _ _ _ _ _ _ _ Hval)
    as [[-> ->] | (-> & He & Hp & Hdef & [[Hcrit ->] | [Hcrit ->]])].
  - destruct (CanSet t _); [|discriminate]. cbn zeta.
    intros Hfail. right. exists value. split; [exact Hval|].
    revert Hfail.
    destruct (reflect.TypeKind f) eqn:Hk; cbn;
      try discriminate;
      try (intros Hbad; exfalso; exact (afterSet_not_Fail _ _ Hbad)).
    all: repeat case_match; try discriminate;
      try (intros Hbad; exfalso; exact (afterSet_not_Fail _ _ Hbad)).
    all: intros [= <-].
    all: first
      [ left; split; [|split; reflexivity];
        repeat first [apply list_elem_of_here | apply list_elem_of_further]
      | right; left; repeat split; reflexivity
      | right; right; repeat split; reflexivity ].
  - intros [= <-]. left. repeat split; try assumption.
    rewrite Hhas in Hdef.
    destruct (reflect.Lookup (reflect.Tag f) "def"); [|reflexivity].
    rewrite bool_decide_eq_true_2 in Hdef by eauto. discriminate.
  - discriminate.
Qed.

(** Every error the call returns is justified by one field of the
    struct: either the field is critical, declares no default and its
    effective name is in neither source, and the error is the
    missing-field error for that name; or the field resolved to a string
    that its conversion (int, bool or float) rejects, and the error is
    the conversion error for its lookup name. *)
Theorem returned_error_justified environ props prefix t vals vals' err :
  manageFields ParseFloat toFloat32 environ
    (Some (PointerObj (Some (StructObj t vals)))) props prefix
    = Returned vals' (Some err) ->
  exists f, f ∈ t /\
    ((err = missingCritical (effectiveName (getTags f).1 prefix) /\
      Critical (getTags f).1 = true /\
      reflect.Lookup (reflect.Tag f) "def" = None /\
      environ !! effectiveName (getTags f).1 prefix = None /\
      propsGet props (effectiveName (getTags f).1 prefix) = None) \/
     (exists value,
        getEnvValue environ (getTags f).1 props prefix = (value, None, true) /\
        ((reflect.TypeKind f ∈ [reflect.Int; reflect.Int8; reflect.Int32;
                                reflect.Int64] /\
          strconv.Atoi value = None /\
          err = convError (Name (getTags f).1) "int") \/
         (reflect.TypeKind f = reflect.Bool /\
          strconv.ParseBool value = None /\
          err = convError (Name (getTags f).1) "bool") \/
         (reflect.TypeKind f = reflect.Float32 /\
          ParseFloat value = None /\
          err = convError (Name (getTags f).1) "float")))).
Proof.
  unfold manageFields. intros Hloop.
  apply fieldLoop_error_origin in Hloop as (f & Hf & Hfail).
  exists f. split; [exact Hf|].
  eapply manageField_Fail_why. exact Hfail.
Qed.

(** The error returned is that of the first field, in declaration order,
    whose turn fails: when the fields before it pass, the call returns its
    error with the struct as they left it, and no field from the failing
    one onwards has been touched. *)
Theorem first_failure_returned environ props prefix pre f post vals vals1 err :
  fieldLoop ParseFloat toFloat32 environ props prefix (pre ++ f :: post) pre vals
    = Returned vals1 None ->
  manageField ParseFloat toFloat32 environ props prefix (pre ++ f :: post) f vals1
    = Fail err ->
  manageFields ParseFloat toFloat32 environ
    (Some (PointerObj (Some (StructObj (pre ++ f :: post) vals)))) props prefix
    = Returned vals1 (Some err) /\
  forall j : nat, (List.length pre <= j)%nat -> vals1 !! j = vals !! j.
Proof.
  intros Hpre Hfail. unfold manageFields. split.
  - rewrite fieldLoop_app, Hpre. cbn [fieldLoop]. rewrite Hfail. reflexivity.
  - intros j Hj. eapply fieldLoop_frame; [exact Hpre|].
    intros g Hg Hfld.
    destruct (FieldByName_from_app_l pre (f :: post) g 0 Hg) as (i & Hi & Hlt).
    unfold reflect.FieldByName in Hfld. rewrite Hi in Hfld.
    injection Hfld as ->. lia.
Qed.

Lemma fieldLoop_success_split environ props prefix t (j : nat) f vals vals' :
  NoDup (fieldNames t) -> t !! j = Some f ->
  fieldLoop ParseFloat toFloat32 environ props prefix t t vals
    = Returned vals' None ->
  exists vals1 vals2,
    List.length vals1 = List.length vals /\
    manageField ParseFloat toFloat32 environ props prefix t f vals1 = Next vals2 /\
    vals' !! j = vals2 !! j.
Proof.
  intros Hnd Hj Hloop.
  rewrite <- (take_drop_middle t j f Hj) in Hloop at 2.
  rewrite fieldLoop_app in Hloop.
  destruct (fieldLoop ParseFloat toFloat32 environ props prefix t (take j t) vals)
    as [vals1 [e|]|why] eqn:Hpre; try discriminate.
  cbn [fieldLoop] in Hloop.
  destruct (manageField ParseFloat toFloat32 environ props prefix t f vals1)
    as [vals2|e|why] eqn:Hstep; try discriminate.
  exists vals1, vals2. split; [|split; [exact Hstep|]].
  - eapply fieldLoop_length. exact Hpre.
  - eapply fieldLoop_frame; [exact Hloop|].
    intros g Hg Hfld.
    apply list_elem_of_lookup_1 in Hg as [k Hk].
    rewrite lookup_drop in Hk.
    pose proof (FieldByName_from_own t g 0 _ Hnd Hk) as Hown.
    unfold reflect.FieldByName in Hfld. rewrite Hown in Hfld.
    injection Hfld as Hbad. lia.
Qed.

(** After a call that returns nil on a struct with distinct field names,
    every exported field that resolved to a string holds that string
    converted: a string field the string itself, a bool field what
    [strconv.ParseBool] reads, a field of kind int, int8, int32 or int64
    what [strconv.Atoi] reads, wrapped to its width. In particular the
    conversion succeeded. *)
Theorem successful_call_sets_resolved_fields environ props prefix t vals vals'
    (j : nat) f value err :
  NoDup (fieldNames t) ->
  manageFields ParseFloat toFloat32 environ
    (Some (PointerObj (Some (StructObj t vals)))) props prefix
    = Returned vals' None ->
  t !! j = Some f -> reflect.IsExported f = true ->
  (j < List.length vals)%nat ->
  getEnvValue environ (getTags f).1 props prefix = (value, err, true) ->
  (reflect.TypeKind f = reflect.String -> vals' !! j = Some (VString value)) /\
  (reflect.TypeKind f = reflect.Bool ->
   exists b, strconv.ParseBool value = Some b /\ vals' !! j = Some (VBool b)) /\
  (reflect.TypeKind f ∈ [reflect.Int; reflect.Int8; reflect.Int32; reflect.Int64] ->
   exists z w, strconv.Atoi value = Some z /\
               intBits (reflect.TypeKind f) = Some w /\
               vals' !! j = Some (VInt (wrap w z))).
Proof.
  intros Hnd Hcall Hj Hexp Hlt Hval. unfold manageFields in Hcall.
  destruct (fieldLoop_success_split _ _ _ _ _ _ _ _ Hnd Hj Hcall)
    as (vals1 & vals2 & Hlen & Hstep & Hsame).
  assert (settableAt t f j) as Hset.
  { split; [exact Hexp|]. split; [|exact Hj].
    unfold reflect.FieldByName. rewrite (FieldByName_from_own t f 0 j Hnd Hj).
    reflexivity. }
  rewrite Hsame. rewrite <- Hlen in Hlt. repeat split.
  - intros Hk.
    rewrite (manageField_string ParseFloat toFloat32 _ _ _ _ _ _ _ _ _ Hset Hk Hval)
      in Hstep.
    injection Hstep as <-. apply list_lookup_insert_eq. exact Hlt.
  - intros Hk.
    rewrite (manageField_bool ParseFloat toFloat32 _ _ _ _ _ _ _ _ _ Hset Hk Hval)
      in Hstep.
    destruct (strconv.ParseBool value) as [b|]; [|discriminate].
    injection Hstep as <-. exists b. split; [reflexivity|].
    apply list_lookup_insert_eq. exact Hlt.
  - intros Hk.
    assert (isIntKind (reflect.TypeKind f) = true) as Hint.
    { repeat (apply elem_of_cons in Hk as [-> | Hk]); try reflexivity.
      by apply elem_of_nil in Hk. }
    rewrite (manageField_int ParseFloat toFloat32 _ _ _ _ _ _ _ _ _ Hset Hint Hval)
      in Hstep.
    destruct (strconv.Atoi value) as [z|]; [|discriminate].
    destruct (intBits (reflect.TypeKind f)) as [w|]; [|discriminate].
    injection Hstep as <-. exists z, w. repeat split.
    apply list_lookup_insert_eq. exact Hlt.
Qed.

End EngineMore.

(** ** The further properties on the example data *)

Lemma unexported_field_never_written_witness :
  [VInt 9090; VString "example.com"; VBool false; VBool false; VOpaque] !! 3%nat
  = MoreExamples.zeroWide !! 3%nat.
Proof.
  apply (unexported_field_never_written
           Examples.parseNoFloat Examples.convNoFloat
           MoreExamples.envWide None "" MoreExamples.tWide
           MoreExamples.zeroWide _ None 3%nat Examples.fSecret);
    reflexivity.
Defined.

Lemma call_keeps_struct_shape_witness :
  List.length
    [VInt 9090; VString "example.com"; VBool false; VBool false;
     @VOpaque Empty_set Empty_set]
  = List.length MoreExamples.zeroWide.
Proof.
  apply (call_keeps_struct_shape
           Examples.parseNoFloat Examples.convNoFloat
           MoreExamples.envWide None "" MoreExamples.tWide
           MoreExamples.zeroWide _ None).
  reflexivity.
Defined.

Lemma call_idempotent_witness :
  manageFields Examples.parseNoFloat Examples.convNoFloat MoreExamples.envWide
    (Some (PointerObj (Some (StructObj MoreExamples.tWide
       [VInt 9090; VString "example.com"; VBool false; VBool false; VOpaque]))))
    None ""
  = Returned
      [VInt 9090; VString "example.com"; VBool false; VBool false; VOpaque] None.
Proof.
  apply (call_idempotent Examples.parseNoFloat Examples.convNoFloat
           MoreExamples.envWide None "" MoreExamples.tWide MoreExamples.zeroWide).
  - refine (bool_decide_unpack _ _). vm_compute. exact I.
  - reflexivity.
Defined.

Lemma struct_pointer_never_panics_witness :
  exists vals' err,
    loadVariables Examples.parseNoFloat Examples.convNoFloat Examples.noFiles
      MoreExamples.envWide
      (Some (PointerObj (Some (StructObj MoreExamples.tWide MoreExamples.zeroWide))))
      "APP" "app.properties"
    = Returned vals' err.
Proof.
  apply (struct_pointer_never_panics Examples.parseNoFloat Examples.convNoFloat).
  refine (bool_decide_unpack _ _). vm_compute. exact I.
Defined.

Lemma call_reads_only_field_keys_witness :
  manageFields Examples.parseNoFloat Examples.convNoFloat Examples.envHost
    (Some (PointerObj (Some (StructObj Examples.tConfig Examples.zeroConfig))))
    None ""
  = manageFields Examples.parseNoFloat Examples.convNoFloat
      (<["HOME" := "/root"]> Examples.envHost)
      (Some (PointerObj (Some (StructObj Examples.tConfig Examples.zeroConfig))))
      (Some {[ "PATH" := "/bin" ]}) "".
Proof.
  apply (call_reads_only_field_keys Examples.parseNoFloat Examples.convNoFloat).
  intros f Hf.
  repeat (apply elem_of_cons in Hf as [-> | Hf]); try (split; reflexivity).
  by apply elem_of_nil in Hf.
Defined.

Lemma environment_shadows_properties_witness :
  manageFields Examples.parseNoFloat Examples.convNoFloat Examples.envPort
    (Some (PointerObj (Some (StructObj Examples.tConfig Examples.zeroConfig))))
    (Some Examples.propsPort) ""
  = manageFields Examples.parseNoFloat Examples.convNoFloat Examples.envPort
      (Some (PointerObj (Some (StructObj Examples.tConfig Examples.zeroConfig))))
      None "".
Proof.
  apply (environment_shadows_properties
           Examples.parseNoFloat Examples.convNoFloat).
  intros key Hkey. cbn.
  destruct (decide (key = "PORT")) as [-> | Hne]; [discriminate Hkey|].
  apply lookup_singleton_ne. congruence.
Defined.

Lemma missing_file_as_empty_file_witness :
  loadVariables Examples.parseNoFloat Examples.convNoFloat Examples.noFiles
    Examples.envHost
    (Some (PointerObj (Some (StructObj Examples.tConfig Examples.zeroConfig))))
    "" "app.properties"
  = loadVariables Examples.parseNoFloat Examples.convNoFloat
      MoreExamples.emptyFile Examples.envHost
      (Some (PointerObj (Some (StructObj Examples.tConfig Examples.zeroConfig))))
      "" "app.properties".
Proof.
  apply (missing_file_as_empty_file
           Examples.parseNoFloat Examples.convNoFloat
           Examples.noFiles MoreExamples.emptyFile _ _ _ _
           "open app.properties: no such file or directory");
    reflexivity.
Defined.

Lemma optional_missing_field_skipped_witness :
  fieldLoop Examples.parseNoFloat Examples.convNoFloat ∅ None "APP"
    [MoreExamples.fNote] [MoreExamples.fNote] [VString "kept"]
  = Returned [VString "kept"] None.
Proof.
  rewrite (optional_missing_field_skipped
             Examples.parseNoFloat Examples.convNoFloat ∅ None "APP"
             [MoreExamples.fNote] MoreExamples.fNote [] [VString "kept"]);
    reflexivity.
Defined.

Lemma unsupported_kind_skipped_witness :
  fieldLoop Examples.parseNoFloat Examples.convNoFloat
    {[ "Tags" := "a,b" ]} None ""
    [MoreExamples.fTags] [MoreExamples.fTags] [VOpaque]
  = Returned [VOpaque] None.
Proof.
  rewrite (unsupported_kind_skipped
             Examples.parseNoFloat Examples.convNoFloat
             {[ "Tags" := "a,b" ]} None ""
             [MoreExamples.fTags] MoreExamples.fTags [] [VOpaque] "a,b" None).
  - reflexivity.
  - refine (bool_decide_unpack _ _). vm_compute. exact I.
  - reflexivity.
Defined.

Lemma string_field_set_verbatim_witness :
  fieldLoop Examples.parseNoFloat Examples.convNoFloat Examples.envHost None ""
    Examples.tConfig [Examples.fHost] Examples.zeroConfig
  = Returned [VInt 0; VString "example.com"; VBool false] None.
Proof.
  rewrite (string_field_set_verbatim
             Examples.parseNoFloat Examples.convNoFloat Examples.envHost None ""
             Examples.tConfig Examples.fHost 1%nat [] Examples.zeroConfig
             "example.com" None).
  - reflexivity.
  - repeat split.
  - reflexivity.
  - reflexivity.
Defined.

Lemma int_field_converted_witness :
  fieldLoop Examples.parseNoFloat Examples.convNoFloat
    {[ "PORT" := "nine" ]} None ""
    Examples.tConfig [Examples.fPort] Examples.zeroConfig
  = Returned Examples.zeroConfig (Some "Error converting field PORT to int").
Proof.
  destruct (int_field_converted
              Examples.parseNoFloat Examples.convNoFloat
              {[ "PORT" := "nine" ]} None ""
              Examples.tConfig Examples.fPort 0%nat [] Examples.zeroConfig
              "nine" None) as [_ Hbad].
  - repeat split.
  - apply list_elem_of_here.
  - reflexivity.
  - apply Hbad. reflexivity.
Defined.

Lemma int_field_exact_witness :
  fieldLoop Examples.parseNoFloat Examples.convNoFloat Examples.envPort None ""
    Examples.tConfig [Examples.fPort] Examples.zeroConfig
  = Returned [VInt 9090; VString ""; VBool false] None.
Proof.
  rewrite (int_field_exact
             Examples.parseNoFloat Examples.convNoFloat Examples.envPort None ""
             Examples.tConfig Examples.fPort 0%nat [] Examples.zeroConfig
             "9090" None 9090).
  - reflexivity.
  - repeat split.
  - reflexivity.
  - reflexivity.
  - left. reflexivity.
Defined.

Lemma float32_field_converted_witness :
  fieldLoop Examples.parseNoFloat Examples.convNoFloat
    {[ "Rate" := "fast" ]} None ""
    [MoreExamples.fRate] [MoreExamples.fRate] [VOpaque]
  = Returned [VOpaque] (Some "Error converting field Rate to float").
Proof.
  rewrite (float32_field_converted
             Examples.parseNoFloat Examples.convNoFloat
             {[ "Rate" := "fast" ]} None ""
             [MoreExamples.fRate] MoreExamples.fRate 0%nat [] [VOpaque]
             "fast" None).
  - reflexivity.
  - repeat split.
  - reflexivity.
  - reflexivity.
Defined.

Lemma returned_error_justified_witness :
  exists f, f ∈ Examples.tConfig /\
    ((missingCritical "APP_HOST"
      = missingCritical (effectiveName (getTags f).1 "APP") /\
      Critical (getTags f).1 = true /\
      reflect.Lookup (reflect.Tag f) "def" = None /\
      (∅ : Environ) !! effectiveName (getTags f).1 "APP" = None /\
      propsGet None (effectiveName (getTags f).1 "APP") = None) \/
     (exists value,
        getEnvValue ∅ (getTags f).1 None "APP" = (value, None, true) /\
        ((reflect.TypeKind f ∈ [reflect.Int; reflect.Int8; reflect.Int32;
                                reflect.Int64] /\
          strconv.Atoi value = None /\
          missingCritical "APP_HOST" = convError (Name (getTags f).1) "int") \/
         (reflect.TypeKind f = reflect.Bool /\
          strconv.ParseBool value = None /\
          missingCritical "APP_HOST" = convError (Name (getTags f).1) "bool") \/
         (reflect.TypeKind f = reflect.Float32 /\
          Examples.parseNoFloat value = None /\
          missingCritical "APP_HOST" = convError (Name (getTags f).1) "float")))).
Proof.
  apply (returned_error_justified
           Examples.parseNoFloat Examples.convNoFloat ∅ None "APP"
           Examples.tConfig Examples.zeroConfig
           [VInt 8080; VString ""; VBool false]).
  reflexivity.
Defined.

Lemma first_failure_returned_witness :
  manageFields Examples.parseNoFloat Examples.convNoFloat
    {[ "HOST" := "example.com"; "DEBUG" := "maybe" ]}
    (Some (PointerObj (Some (StructObj Examples.tConfig Examples.zeroConfig))))
    None ""
  = Returned [VInt 8080; VString "example.com"; VBool false]
      (Some "Error converting field DEBUG to bool").
Proof.
  apply (first_failure_returned
           Examples.parseNoFloat Examples.convNoFloat
           {[ "HOST" := "example.com"; "DEBUG" := "maybe" ]} None ""
           [Examples.fPort; Examples.fHost] Examples.fDebug []
           Examples.zeroConfig);
    reflexivity.
Defined.

Lemma successful_call_sets_resolved_fields_witness :
  [VInt 9090; VString "example.com"; VBool false; VBool false;
   @VOpaque Empty_set Empty_set] !! 1%nat
  = Some (VString "example.com").
Proof.
  destruct (successful_call_sets_resolved_fields
              Examples.parseNoFloat Examples.convNoFloat
              MoreExamples.envWide None "" MoreExamples.tWide
              MoreExamples.zeroWide
              [VInt 9090; VString "example.com"; VBool false; VBool false; VOpaque]
              1%nat Examples.fHost "example.com" None) as (Hstr & _ & _).
  - refine (bool_decide_unpack _ _). vm_compute. exact I.
  - reflexivity.
  - reflexivity.
  - reflexivity.
  - cbn. lia.
  - reflexivity.
  - apply Hstr. reflexivity.
Defined.
